(** * Chat2SVG, stage 1 (template generation): generate, refine, select

    A shallow embedding of the four modules of [1_template_generation]:
    - [main.py]          (CLI entry point: [main], [select_best_svg]),
    - [api_wrapper.py]   ([TemplateGenerator.generate], [_execute_generation],
                          [_select_best_svg], [generate_template]),
    - [handler.py]       ([SVGGenerator], [handler]),
    - [runpod_config.py] ([RunPodConfig.validate_input], [get_default_params],
                          [merge_with_defaults], [check_environment]).

    Python text is a [string] (code points below 256), a Python [int] is a
    [Z], a [dict] with string keys is a [gmap string _].  The collaborators
    that live outside these files (the language-model session, the renderer,
    the two reward models, the operating system's temporary directories) are
    the fields of a record [World]; every call to one of them is appended to
    a trace, so that statements about the order and the arguments of the
    calls are statements about a list of events. *)

From Stdlib Require Import ZArith QArith Ascii String.
From stdpp Require Import gmap strings pretty sorting list.

Open Scope string_scope.
Open Scope Z_scope.
Open Scope list_scope.

(** ** Python values and exceptions *)

(** The JSON payload of a request: [PyFloat] and [PyObj] (a list or a dict)
    carry the text that [str] gives for them, which is all the code ever
    asks of such a value. *)
Inductive pyval : Type :=
| PyNone
| PyBool (b : bool)
| PyInt (z : Z)
| PyFloat (repr : string)
| PyStr (s : string)
| PyObj (repr : string).

#[global] Instance pyval_eq_dec : EqDecision pyval.
Proof. solve_decision. Defined.

Inductive exn : Type :=
| AssertionError (msg : string)
| ValueError (msg : string)
| IndexError (msg : string)
| TypeError (msg : string)
| AttributeError (msg : string)
| RuntimeError (msg : string)
| FileNotFoundError (path : string)
| CollaboratorError (msg : string).

Inductive result (A : Type) : Type :=
| Ok (a : A)
| Raise (e : exn).
Arguments Ok {A} a.
Arguments Raise {A} e.

(** [isinstance(v, int)]: [bool] is a subclass of [int], [True == 1]. *)
Definition as_int (v : pyval) : option Z :=
  match v with
  | PyInt z => Some z
  | PyBool b => Some (if b then 1 else 0)
  | _ => None
  end.

(** [str(v)], which is what an f-string field [{v}] prints. *)
Definition py_str (v : pyval) : string :=
  match v with
  | PyNone => "None"
  | PyBool b => if b then "True" else "False"
  | PyInt z => pretty z
  | PyFloat r => r
  | PyStr s => s
  | PyObj r => r
  end.

(** [c.isspace()] for a code point below 256. *)
Definition py_isspace (c : ascii) : bool :=
  let n := N_of_ascii c in
  ((9 <=? n) && (n <=? 13) || (28 <=? n) && (n <=? 32)
   || (n =? 133) || (n =? 160))%N.

Fixpoint lstrip (s : string) : string :=
  match s with
  | String c s' => if py_isspace c then lstrip s' else s
  | EmptyString => EmptyString
  end.

(** [s.strip()] *)
Definition strip (s : string) : string :=
  String.rev (lstrip (String.rev (lstrip s))).

(** [v in ["ImageReward", "CLIP"]] *)
Definition in_supported (v : pyval) : bool :=
  bool_decide (v = PyStr "ImageReward") || bool_decide (v = PyStr "CLIP").

(** ** runpod_config.py *)

Module RunPodConfig.

Definition DEFAULT_MODEL : string := "claude-3-5-sonnet-20240620".
Definition DEFAULT_REWARD_MODEL : string := "ImageReward".
Definition DEFAULT_VIEWBOX : Z := 512.
Definition DEFAULT_REFINE_ITER : Z := 2.
Definition DEFAULT_PROMPTS_FILE : string := "prompts".

(** [job_input.get(key, default)] *)
Definition get (job_input : gmap string pyval) (key : string) (default : pyval)
  : pyval :=
  match job_input !! key with
  | Some v => v
  | None => default
  end.

Definition msg_invalid_refine_iter (v : pyval) : string :=
  "Invalid refine_iter: " +:+ py_str v +:+ ". Must be a non-negative integer".

Definition msg_refine_iter_too_high (v : pyval) : string :=
  "refine_iter too high: " +:+ py_str v +:+ ". Maximum is 10 to prevent timeouts".

(** [RunPodConfig.validate_input]: the pair [(is_valid, error_message)],
    or the exception of [job_input["prompt"].strip()] on a value that is
    not text. *)
Definition validate_input (job_input : gmap string pyval)
  : result (bool * string) :=
  match job_input !! "prompt" with
  | None => Ok (false, "Missing required parameter: prompt")
  | Some (PyStr p) =>
      if bool_decide (strip p = "") then
        Ok (false, "Parameter 'prompt' cannot be empty")
      else
        let reward_model := get job_input "reward_model" (PyStr DEFAULT_REWARD_MODEL) in
        if negb (in_supported reward_model) then
          Ok (false, "Invalid reward_model: " +:+ py_str reward_model
                     +:+ ". Must be 'ImageReward' or 'CLIP'")
        else
          let viewbox := get job_input "viewbox" (PyInt DEFAULT_VIEWBOX) in
          match as_int viewbox with
          | None =>
              Ok (false, "Invalid viewbox: " +:+ py_str viewbox
                         +:+ ". Must be a positive integer")
          | Some vb =>
              if vb <=? 0 then
                Ok (false, "Invalid viewbox: " +:+ py_str viewbox
                           +:+ ". Must be a positive integer")
              else
                let refine_iter :=
                  get job_input "refine_iter" (PyInt DEFAULT_REFINE_ITER) in
                match as_int refine_iter with
                | None => Ok (false, msg_invalid_refine_iter refine_iter)
                | Some n =>
                    if n <? 0 then Ok (false, msg_invalid_refine_iter refine_iter)
                    else if 10 <? n then
                      Ok (false, msg_refine_iter_too_high refine_iter)
                    else Ok (true, "")
                end
          end
  | Some _ => Raise (AttributeError "object has no attribute 'strip'")
  end.

(** [RunPodConfig.get_default_params] *)
Definition get_default_params : gmap string pyval :=
  list_to_map
    [("model", PyStr DEFAULT_MODEL);
     ("reward_model", PyStr DEFAULT_REWARD_MODEL);
     ("viewbox", PyInt DEFAULT_VIEWBOX);
     ("refine_iter", PyInt DEFAULT_REFINE_ITER);
     ("prompts_file", PyStr DEFAULT_PROMPTS_FILE);
     ("target", PyStr "generated")].

(** [RunPodConfig.merge_with_defaults]: [defaults.update(job_input)], the
    entries of [job_input] replacing the defaults of the same key. *)
Definition merge_with_defaults (job_input : gmap string pyval)
  : gmap string pyval :=
  job_input ∪ get_default_params.

End RunPodConfig.

(** The dictionary that [check_environment] returns. *)
Record EnvStatus : Type := {
  all_required_set : bool;
  missing_required : list string;
  optional_set : list (string * bool);
  backend : option string
}.

(** [if not os.getenv(var)]: the variable is unset, or set to the empty
    text. *)
Definition unset_or_empty (env : gmap string string) (var : string) : bool :=
  match env !! var with
  | Some v => bool_decide (v = "")
  | None => true
  end.

(** [check_environment()], on the environment [env] of the process: the
    two loops over [required_vars] and [optional_vars], then the backend. *)
Definition check_environment (env : gmap string string) : EnvStatus :=
  let required_vars := ["ANTHROPIC_API_KEY"; "BACKEND"] in
  let optional_vars := ["OPENAI_API_KEY"] in
  let '(all_set, missing) :=
    fold_left (λ '(all_set, missing) var,
                 if unset_or_empty env var
                 then (false, missing ++ [var])
                 else (all_set, missing))
      required_vars (true, []) in
  {| all_required_set := all_set;
     missing_required := missing;
     optional_set :=
       (λ var, (var, bool_decide (is_Some (env !! var)))) <$> optional_vars;
     backend := env !! "BACKEND" |}.

(** ** Collaborators, events and the state of a process *)

(** One call [session.send(task, input, images=..., file_path=...)].
    [images = None] is a call that passes no [images] argument. *)
Record send_call : Type := SendCall {
  task_name : string;
  structured_input : option pyval;
  images : option (list string);
  file_path : string
}.

(** The calls that leave the four modules, in the order they are made. *)
Inductive event : Type :=
| NewSession (model prompts_file : pyval)      (* gpt.Session(model=, prompts_file=) *)
| Send (c : send_call) (seen : list (option string)) (r : result string)
    (* session.send(...), what lay at the paths of [images] when it was
       called, and what it gave *)
| Save (path content : string)                 (* utils.util.save *)
| SaveSvg (name raw : string)                  (* utils.util.save_svg: extract and render *)
| LoadModel (weights : string)                 (* RM.load / clip.load *)
| InferenceRank (prompt : pyval) (png_files : list string)
| ClipEncode (prompt : pyval) (png_files : list string)
| Copy (src dst : string).                     (* shutil.copy *)

(** What the collaborators answer.  [session_send] sees the calls made so
    far (the session accumulates its conversation) and the image files it
    is pointed to. *)
Record World : Type := {
  session_send : list event → send_call → list (option string) → result string;
  extract_svg : string → result string;
  render : pyval → string → option string;
  inference_rank : pyval → list string → result (list Z);
  cosine : pyval → string → Q;
  get_prompt : string → string;
  mkdtemp : list event → string
}.

(** A model held by [self.reward_model]: the weights that were
    loaded, and the position in the trace of the load that made it. *)
Record loaded_model : Type := Loaded {
  weights : string;
  instance : nat
}.

#[global] Instance loaded_model_eq_dec : EqDecision loaded_model.
Proof. solve_decision. Defined.

(** The attributes of [handler.SVGGenerator]. *)
Record SVGGenerator : Type := {
  self_session : option pyval;       (* the [model] of [self.session] *)
  self_reward_model : option loaded_model;
  self_reward_model_name : option string;
  self_preprocess : option loaded_model
}.

(** [SVGGenerator.__init__] *)
Definition new_generator : SVGGenerator :=
  {| self_session := None; self_reward_model := None;
     self_reward_model_name := None; self_preprocess := None |}.

(** The files on disk, the calls made so far, and the module-level
    [generator] of [handler.py]. *)
Record state : Type := {
  files : gmap string string;
  trace : list event;
  generator : SVGGenerator
}.

Definition init_state (fs : gmap string string) : state :=
  {| files := fs; trace := []; generator := new_generator |}.

Definition set_files (fs : gmap string string) (s : state) : state :=
  {| files := fs; trace := trace s; generator := generator s |}.
Definition set_trace (tr : list event) (s : state) : state :=
  {| files := files s; trace := tr; generator := generator s |}.
Definition set_generator (g : SVGGenerator) (s : state) : state :=
  {| files := files s; trace := trace s; generator := g |}.

(** Statements run in sequence over the state; an exception stops the
    rest and keeps the state reached. *)
Definition M (A : Type) : Type := state → result A * state.

#[global] Instance M_ret : MRet M := λ A a s, (Ok a, s).
#[global] Instance M_bind : MBind M := λ A B f m s,
  match m s with
  | (Ok a, s') => f a s'
  | (Raise e, s') => (Raise e, s')
  end.

Definition raise {A : Type} (e : exn) : M A := λ s, (Raise e, s).
Definition lift {A : Type} (r : result A) : M A := λ s, (r, s).
Definition log (e : event) : M unit :=
  λ s, (Ok tt, set_trace (trace s ++ [e]) s).
Definition write_file (path content : string) : M unit :=
  λ s, (Ok tt, set_files (<[path := content]> (files s)) s).
Definition read_file (path : string) : M string :=
  λ s, match files s !! path with
       | Some c => (Ok c, s)
       | None => (Raise (FileNotFoundError path), s)
       end.
Definition get_trace : M (list event) := λ s, (Ok (trace s), s).
Definition get_generator : M SVGGenerator := λ s, (Ok (generator s), s).
Definition put_generator (g : SVGGenerator) : M unit :=
  λ s, (Ok tt, set_generator g s).

(** [assert cond, msg] *)
Definition py_assert (cond : bool) (msg : string) : M unit :=
  if cond then mret tt else raise (AssertionError msg).

(** ** The file system calls *)

Definition ends_with (suffix s : string) : bool :=
  String.prefix (String.rev suffix) (String.rev s).

Fixpoint has_slash (s : string) : bool :=
  match s with
  | EmptyString => false
  | String c s' => bool_decide (c = "/"%char) || has_slash s'
  end.

(** Does [path] match the pattern [dir/*.png]?  [*] matches neither a
    separator nor a leading dot; [dir] is taken literally. *)
Definition matches_png (dir path : string) : bool :=
  let d := dir +:+ "/" in
  String.prefix d path &&
  let base := String.substring (String.length d)
                (String.length path - String.length d) path in
  ends_with ".png" base && negb (String.prefix "." base) && negb (has_slash base).

(** [glob.glob(f"{dir}/*.png")] *)
Definition glob_png (dir : string) (fs : gmap string string) : list string :=
  filter (λ p, matches_png dir p = true) (map_to_list fs).*1.

(** [sorted(...)] on a list of [str]: code point order. *)
Definition sorted (l : list string) : list string := merge_sort String.le l.

Definition sorted_glob_png (dir : string) : M (list string) :=
  λ s, (Ok (sorted (glob_png dir (files s))), s).

(** [shutil.copy(src, dst)] *)
Definition copy (src dst : string) : M unit :=
  log (Copy src dst);;
  content ← read_file src;
  write_file dst content.

(** [os.path.exists(path)] *)
Definition path_exists (path : string) : M bool :=
  λ s, (Ok (bool_decide (is_Some (files s !! path))), s).

(** ** The configuration object and the artifact names *)

(** The attributes of the [cfgs] / [cfg] namespace that the pipeline reads.
    [target] is the text an f-string prints for it. *)
Record Config : Type := {
  target : string;
  prompt : pyval;
  viewbox : pyval;
  refine_iter : pyval;
  model : pyval;
  reward_model : string;
  prompts_file : pyval;
  root_dir : string;
  svg_dir : string;
  png_dir : string;
  msg_dir : string
}.

(** [f"{target}_{i}"] *)
Definition candidate_name (target : string) (i : Z) : string :=
  target +:+ "_" +:+ pretty i.

(** [msg_path = lambda i: f"{msg_dir}/{target}_raw{i}"] *)
Definition msg_path (cfg : Config) (i : Z) : string :=
  msg_dir cfg +:+ "/" +:+ target cfg +:+ "_raw" +:+ pretty i.

(** [f"{msg_dir}/{target}_prompt"] *)
Definition prompt_path (cfg : Config) : string :=
  msg_dir cfg +:+ "/" +:+ target cfg +:+ "_prompt".

(** [f"{svg_dir}/{target}_{i}.svg"] *)
Definition svg_path (cfg : Config) (i : Z) : string :=
  svg_dir cfg +:+ "/" +:+ candidate_name (target cfg) i +:+ ".svg".

(** [f"{png_dir}/{target}_{i}.png"] *)
Definition png_path (cfg : Config) (i : Z) : string :=
  png_dir cfg +:+ "/" +:+ candidate_name (target cfg) i +:+ ".png".

(** [f"{root_dir}/{target}_template.svg"] *)
Definition template_path (cfg : Config) : string :=
  root_dir cfg +:+ "/" +:+ target cfg +:+ "_template.svg".

(** ** Calls to the collaborators *)

(** [session.send(...)]: the answer is read from the world and the call is
    recorded with it and with the content of the files that [images] names
    at that moment ([None] for a path with no file); a failed call raises. *)
Definition send (w : World) (c : send_call) : M string :=
  λ s, let seen := (λ p, files s !! p) <$> default [] (images c) in
       let r := session_send w (trace s) c seen in
       (r, set_trace (trace s ++ [Send c seen r]) s).

(** [save(path, content)] of [utils.util]: recorded. *)
Definition save (path content : string) : M unit := log (Save path content).

(** Modelled from the spec: [utils.util.save_svg] is not among the sources.
    By the data model it extracts the vector code from the raw response
    (an unparseable response is fatal), stores it as
    [{svg_dir}/{name}.svg] and renders it at the run's viewbox to
    [{png_dir}/{name}.png]; a failed render leaves the candidate without a
    render and does not abort the run. *)
Definition save_svg (w : World) (cfg : Config) (svg_code name : string) : M unit :=
  log (SaveSvg name svg_code);;
  code ← lift (extract_svg w svg_code);
  write_file (svg_dir cfg +:+ "/" +:+ name +:+ ".svg") code;;
  match render w (viewbox cfg) code with
  | Some png => write_file (png_dir cfg +:+ "/" +:+ name +:+ ".png") png
  | None => mret tt
  end.

(** [range(1, refine_iter + 1)]; a [refine_iter] that is not an [int] makes
    [refine_iter + 1] or [range] raise [TypeError]. *)
Definition range_from_1 (refine_iter : pyval) : result (list Z) :=
  match as_int refine_iter with
  | Some n => Ok (seqZ 1 n)
  | None => Raise (TypeError "refine_iter + 1 is not an integer")
  end.

(** ** Tasks 1 to 3: expand, generate, refine

    The three entry points run the same statements; they are written once. *)

(** The body of [for i in range(1, refine_iter + 1)], with the loop
    variable [png_path] threaded through. *)
Fixpoint refine_loop (w : World) (cfg : Config) (idxs : list Z) (png : string)
  : M string :=
  match idxs with
  | [] => mret png
  | i :: rest =>
      svg_code ← send w (SendCall "svg_refine" None (Some [png]) (msg_path cfg i));
      save (msg_path cfg i) svg_code;;
      save_svg w cfg svg_code (candidate_name (target cfg) i);;
      refine_loop w cfg rest (png_path cfg i)
  end.

(** Task 1, task 2 and task 3; the result is [expanded_text_prompt]. *)
Definition generation (w : World) (cfg : Config) : M string :=
  expanded_text_prompt ←
    send w (SendCall "expand_text_prompt" (Some (prompt cfg)) None (prompt_path cfg));
  save (prompt_path cfg) expanded_text_prompt;;
  svg_code ← send w (SendCall "write_svg_code" None None (msg_path cfg 0));
  save (msg_path cfg 0) svg_code;;
  save_svg w cfg svg_code (candidate_name (target cfg) 0);;
  idxs ← lift (range_from_1 (refine_iter cfg));
  refine_loop w cfg idxs (png_path cfg 0);;
  mret expanded_text_prompt.

(** ** The two scorers *)

Definition Qltb (x y : Q) : bool := negb (Qle_bool y x).

(** The scan behind [similarity.argmax()]: the position of the first
    maximal entry. *)
Fixpoint argmax_go (l : list Q) (i : nat) (best : Q) (best_i : nat) : nat :=
  match l with
  | [] => best_i
  | x :: l' =>
      if Qltb best x then argmax_go l' (S i) x i
      else argmax_go l' (S i) best best_i
  end.

Definition argmax (l : list Q) : result nat :=
  match l with
  | [] => Raise (RuntimeError "argmax(): expected a non-empty tensor")
  | x :: l' => Ok (argmax_go l' 1 x 0)
  end.

(** [image_features @ text_features.T] once both are normalized: the
    cosine of each image of [png_files] to the prompt, in the order of
    [png_files].  A similarity is a rational number, as every finite float
    is. *)
Definition cosines (w : World) (prompt : pyval) (png_files : list string)
  : list Q :=
  cosine w prompt <$> png_files.

(** [similarity = (100.0 * image_features @ text_features.T).squeeze()] *)
Definition similarity (w : World) (prompt : pyval) (png_files : list string)
  : list Q :=
  (λ x, 100 * x)%Q <$> cosines w prompt png_files.

(** The block under [with torch.no_grad():], the same in the three files. *)
Definition best_index_of (w : World) (model_name : string) (prompt : pyval)
    (png_files : list string) : M Z :=
  if bool_decide (model_name = "ImageReward") then
    log (InferenceRank prompt png_files);;
    ranking ← lift (inference_rank w prompt png_files);
    match ranking with
    | r :: _ => mret (r - 1)
    | [] => raise (IndexError "list index out of range")
    end
  else
    match png_files with
    | [] => raise (RuntimeError "torch.cat(): expected a non-empty list of Tensors")
    | _ :: _ =>
        log (ClipEncode prompt png_files);;
        i ← lift (argmax (similarity w prompt png_files));
        mret (Z.of_nat i)
    end.

(** ** main.py *)

Module Main.

(** The command line of [main.py]. *)
Record Args : Type := {
  arg_target : string;
  arg_output_path : string;
  arg_output_folder : string;
  arg_viewbox : Z;
  arg_refine_iter : Z;
  arg_model : string;
  arg_reward_model : string
}.

(** [parse_arguments]: the namespace it returns.  (It also creates the
    directories, keeping what is in them, and dumps the configuration.) *)
Definition parse_arguments (w : World) (a : Args) : Config :=
  let root := arg_output_path a +:+ "/" +:+ arg_output_folder a in
  let output_folder := root +:+ "/stage_1" in
  {| target := arg_target a;
     prompt := PyStr (get_prompt w (arg_target a));
     viewbox := PyInt (arg_viewbox a);
     refine_iter := PyInt (arg_refine_iter a);
     model := PyStr (arg_model a);
     reward_model := arg_reward_model a;
     prompts_file := PyStr "prompts";
     root_dir := root;
     svg_dir := output_folder +:+ "/svg_logs";
     png_dir := output_folder +:+ "/png_logs";
     msg_dir := output_folder +:+ "/raw_logs" |}.

(** [select_best_svg(cfgs, model_name)] *)
Definition select_best_svg (w : World) (cfgs : Config) (model_name : string)
  : M unit :=
  py_assert (in_supported (PyStr model_name))
    "Only `ImageReward` and `CLIP` are supported";;
  (if bool_decide (model_name = "ImageReward")
   then log (LoadModel "ImageReward-v1.0")
   else log (LoadModel "ViT-B/32"));;
  png_files ← sorted_glob_png (png_dir cfgs);
  best_index ← best_index_of w model_name (prompt cfgs) png_files;
  let best_svg := candidate_name (target cfgs) best_index +:+ ".svg" in
  copy (svg_dir cfgs +:+ "/" +:+ best_svg) (template_path cfgs).

(** [main(cfgs)] *)
Definition main (w : World) (cfgs : Config) : M unit :=
  log (NewSession (model cfgs) (prompts_file cfgs));;
  generation w cfgs;;
  select_best_svg w cfgs (reward_model cfgs).

End Main.

(** ** api_wrapper.py *)

Module ApiWrapper.

(** What [_execute_generation] returns. *)
Record Result : Type := {
  res_target : string;
  res_best_index : Z;
  res_best_svg_path : string;
  res_svg_dir : string;
  res_png_dir : string;
  res_expanded_prompt : string;
  res_total_iterations : Z
}.

(** [TemplateGenerator._select_best_svg(cfg)] *)
Definition _select_best_svg (w : World) (cfg : Config) : M Z :=
  let model_name := reward_model cfg in
  py_assert (in_supported (PyStr model_name))
    "Only `ImageReward` and `CLIP` are supported";;
  (if bool_decide (model_name = "ImageReward")
   then log (LoadModel "ImageReward-v1.0")
   else log (LoadModel "ViT-B/32"));;
  png_files ← sorted_glob_png (png_dir cfg);
  best_index ← best_index_of w model_name (prompt cfg) png_files;
  let best_svg := candidate_name (target cfg) best_index +:+ ".svg" in
  copy (svg_dir cfg +:+ "/" +:+ best_svg) (template_path cfg);;
  mret best_index.

(** [TemplateGenerator._execute_generation(cfg)] *)
Definition _execute_generation (w : World) (cfg : Config) : M Result :=
  log (NewSession (model cfg) (prompts_file cfg));;
  expanded_text_prompt ← generation w cfg;
  best_index ← _select_best_svg w cfg;
  n ← lift (match as_int (refine_iter cfg) with
            | Some n => Ok n
            | None => Raise (TypeError "refine_iter + 1")
            end);
  mret {| res_target := target cfg;
          res_best_index := best_index;
          res_best_svg_path := template_path cfg;
          res_svg_dir := svg_dir cfg;
          res_png_dir := png_dir cfg;
          res_expanded_prompt := expanded_text_prompt;
          res_total_iterations := n + 1 |}.

(** [TemplateGenerator.generate]: the configuration it builds
    ([output_folder = None] stands for the default, [target]). *)
Definition make_cfg (output_base_path target : string) (prompt : string)
    (output_folder : option string) (viewbox refine_iter : Z)
    (model reward_model prompts_file : string) : Config :=
  let folder := default target output_folder in
  let root := output_base_path +:+ "/" +:+ folder in
  let stage := root +:+ "/stage_1" in
  {| target := target;
     prompt := PyStr prompt;
     viewbox := PyInt viewbox;
     refine_iter := PyInt refine_iter;
     model := PyStr model;
     reward_model := reward_model;
     prompts_file := PyStr prompts_file;
     root_dir := root;
     svg_dir := stage +:+ "/svg_logs";
     png_dir := stage +:+ "/png_logs";
     msg_dir := stage +:+ "/raw_logs" |}.

Definition generate (w : World) (output_base_path target prompt : string)
    (output_folder : option string) (viewbox refine_iter : Z)
    (model reward_model prompts_file : string) : M Result :=
  _execute_generation w
    (make_cfg output_base_path target prompt output_folder viewbox refine_iter
       model reward_model prompts_file).

(** [generate_template]: the convenience function, which builds a
    [TemplateGenerator(output_base_path)] and calls [generate] on it. *)
Definition generate_template (w : World) (target prompt : string)
    (output_folder : option string) (viewbox refine_iter : Z)
    (model reward_model output_base_path prompts_file : string) : M Result :=
  generate w output_base_path target prompt output_folder viewbox refine_iter
    model reward_model prompts_file.

End ApiWrapper.

(** ** handler.py *)

(** [a == b] on request values: a [bool] compares as the integer it is;
    a float or a container is compared through its text. *)
Definition py_eqb (a b : pyval) : bool :=
  match as_int a, as_int b with
  | Some x, Some y => x =? y
  | _, _ => bool_decide (a = b)
  end.

(** [str(e)] *)
Definition exn_str (e : exn) : string :=
  match e with
  | AssertionError m | ValueError m | IndexError m | TypeError m
  | AttributeError m | RuntimeError m | CollaboratorError m => m
  | FileNotFoundError p => "[Errno 2] No such file or directory: '" +:+ p +:+ "'"
  end.

Module Handler.

Record Metadata : Type := {
  md_prompt : pyval;
  md_expanded_prompt : string;
  md_target : pyval;
  md_model : pyval;
  md_reward_model : string;
  md_refine_iterations : pyval;
  md_total_generated : nat
}.

(** The dictionary a request is answered with.  [best_png] is the content
    of the file whose base64 text the handler returns. *)
Inductive response : Type :=
| Success (best_svg : string) (best_index : Z) (best_png : string)
    (all_iterations : list (Z * string)) (metadata : Metadata)
| Failure (error : string).

(** [SVGGenerator.initialize_session] *)
Definition initialize_session (model prompts_file : pyval) : M unit :=
  g ← get_generator;
  let stale := match self_session g with
               | None => true
               | Some m => negb (py_eqb m model)
               end in
  if stale then
    log (NewSession model prompts_file);;
    put_generator {| self_session := Some model;
                     self_reward_model := self_reward_model g;
                     self_reward_model_name := self_reward_model_name g;
                     self_preprocess := self_preprocess g |}
  else mret tt.

(** [SVGGenerator.initialize_reward_model] *)
Definition initialize_reward_model (model_name : string) : M unit :=
  g ← get_generator;
  if bool_decide (self_reward_model g = None)
     || negb (bool_decide (self_reward_model_name g = Some model_name))
  then
    tr ← get_trace;
    (if bool_decide (model_name = "ImageReward") then
       log (LoadModel "ImageReward-v1.0");;
       put_generator
         {| self_session := self_session g;
            self_reward_model := Some (Loaded "ImageReward-v1.0" (length tr));
            self_reward_model_name := Some model_name;
            self_preprocess := self_preprocess g |}
     else
       log (LoadModel "ViT-B/32");;
       put_generator
         {| self_session := self_session g;
            self_reward_model := Some (Loaded "ViT-B/32" (length tr));
            self_reward_model_name := Some model_name;
            self_preprocess := Some (Loaded "ViT-B/32" (length tr)) |})
  else mret tt.

(** [SVGGenerator.select_best_svg] *)
Definition select_best_svg (w : World) (svg_dir png_dir : string)
    (prompt : pyval) (target : string) (model_name : string)
  : M (string * Z) :=
  initialize_reward_model model_name;;
  png_files ← sorted_glob_png png_dir;
  match png_files with
  | [] => raise (ValueError "No PNG files found for ranking")
  | _ :: _ =>
      best_index ← best_index_of w model_name prompt png_files;
      let best_svg_path :=
        svg_dir +:+ "/" +:+ candidate_name target best_index +:+ ".svg" in
      mret (best_svg_path, best_index)
  end.

(** Is [path] below the directory [dir]? *)
Definition under (dir path : string) : bool := String.prefix (dir +:+ "/") path.

Definition remove_tree (dir : string) : M unit :=
  λ s, (Ok tt,
        set_files (filter (λ kv, under dir kv.1 = false) (files s)) s).

(** [with tempfile.TemporaryDirectory() as temp_dir: body]: a directory
    with nothing in it, removed with all it holds when the block is left,
    by a [return] or by an exception. *)
Definition with_temp_dir {A : Type} (w : World) (body : string → M A) : M A :=
  λ s, let temp_dir := mkdtemp w (trace s) in
       let '(r, s1) := (remove_tree temp_dir;; body temp_dir) s in
       (r, (remove_tree temp_dir s1).2).

(** The loop that fills [all_svgs]. *)
Fixpoint collect_svgs (cfg : Config) (idxs : list Z) : M (list (Z * string)) :=
  match idxs with
  | [] => mret []
  | i :: rest =>
      found ← path_exists (svg_path cfg i);
      if found : bool then
        content ← read_file (svg_path cfg i);
        more ← collect_svgs cfg rest;
        mret ((i, content) :: more)
      else collect_svgs cfg rest
  end.

(** [range(refine_iter + 1)] *)
Definition range_from_0 (refine_iter : pyval) : result (list Z) :=
  match as_int refine_iter with
  | Some n => Ok (seqZ 0 (n + 1))
  | None => Raise (TypeError "refine_iter + 1 is not an integer")
  end.

(** The [Config] object that [generate_svg] builds inside [temp_dir]. *)
Definition make_cfg (temp_dir : string) (prompt target viewbox refine_iter
    model : pyval) (reward_model : string) (prompts_file : pyval) : Config :=
  {| target := py_str target;
     prompt := prompt;
     viewbox := viewbox;
     refine_iter := refine_iter;
     model := model;
     reward_model := reward_model;
     prompts_file := prompts_file;
     root_dir := temp_dir;
     svg_dir := temp_dir +:+ "/svg_logs";
     png_dir := temp_dir +:+ "/png_logs";
     msg_dir := temp_dir +:+ "/raw_logs" |}.

(** [SVGGenerator.generate_svg] *)
Definition generate_svg (w : World) (prompt target viewbox refine_iter
    model : pyval) (reward_model : string) (prompts_file : pyval)
  : M response :=
  with_temp_dir w (λ temp_dir,
    let cfg := make_cfg temp_dir prompt target viewbox refine_iter model
                 reward_model prompts_file in
    initialize_session model prompts_file;;
    expanded_text_prompt ← generation w cfg;
    '(best_svg_path, best_index) ←
      select_best_svg w (svg_dir cfg) (png_dir cfg) prompt (py_str target)
        reward_model;
    best_svg_content ← read_file best_svg_path;
    best_png ← read_file (png_path cfg best_index);
    idxs ← lift (range_from_0 refine_iter);
    all_svgs ← collect_svgs cfg idxs;
    mret (Success best_svg_content best_index best_png all_svgs
            {| md_prompt := prompt;
               md_expanded_prompt := expanded_text_prompt;
               md_target := target;
               md_model := model;
               md_reward_model := reward_model;
               md_refine_iterations := refine_iter;
               md_total_generated := length all_svgs |})).

(** [job_input.get(key, default)] *)
Definition get (job_input : gmap string pyval) (key : string) (default : pyval)
  : pyval :=
  match job_input !! key with
  | Some v => v
  | None => default
  end.

(** [handler(event)]; [event.get("input", {})] is the payload.  The
    [try ... except Exception] turns every exception into an error
    answer. *)
Definition handler (w : World) (event : gmap string (gmap string pyval))
  : state → response * state :=
  λ s,
    let job_input := default ∅ (event !! "input") in
    match job_input !! "prompt" with
    | None => (Failure "Missing required parameter: prompt", s)
    | Some prompt =>
        let target := get job_input "target" (PyStr "generated") in
        let viewbox := get job_input "viewbox" (PyInt 512) in
        let refine_iter := get job_input "refine_iter" (PyInt 2) in
        let model := get job_input "model" (PyStr "claude-3-5-sonnet-20240620") in
        let reward_model := get job_input "reward_model" (PyStr "ImageReward") in
        let prompts_file := get job_input "prompts_file" (PyStr "prompts") in
        if negb (in_supported reward_model) then
          (Failure ("Invalid reward_model: " +:+ py_str reward_model
                    +:+ ". Must be 'ImageReward' or 'CLIP'"), s)
        else
          match generate_svg w prompt target viewbox refine_iter model
                  (py_str reward_model) prompts_file s with
          | (Ok result, s') => (result, s')
          | (Raise e, s') => (Failure (exn_str e), s')
          end
    end.

End Handler.

(** ** Reading a trace *)

(** The candidates of a run, in the order they were produced: the name and
    the raw response handed to [save_svg]. *)
Definition candidates (tr : list event) : list (string * string) :=
  omap (λ e, match e with
             | SaveSvg name raw => Some (name, raw)
             | _ => None
             end) tr.

(** The answered code-generating calls: task, [file_path] and response. *)
Definition generated (tr : list event) : list (string * string * string) :=
  omap (λ e, match e with
             | Send c _ (Ok r) =>
                 if bool_decide (task_name c = "expand_text_prompt") then None
                 else Some (task_name c, file_path c, r)
             | _ => None
             end) tr.

(** The model loads, the copies and the scorer invocations of a trace. *)
Definition loads (tr : list event) : list string :=
  omap (λ e, match e with LoadModel m => Some m | _ => None end) tr.

Definition copies (tr : list event) : list (string * string) :=
  omap (λ e, match e with Copy src dst => Some (src, dst) | _ => None end) tr.

Definition scored (tr : list event) : list (list string) :=
  omap (λ e, match e with
             | InferenceRank _ fs | ClipEncode _ fs => Some fs
             | _ => None
             end) tr.


(** The tasks and message files of the code-generating calls of a run with
    [n] refinement rounds. *)
Definition expected_calls (cfg : Config) (n : Z) : list (string * string) :=
  ("write_svg_code", msg_path cfg 0)
  :: ((λ i, ("svg_refine", msg_path cfg i)) <$> seqZ 1 n).

(** [tr'] extends [tr] by a run that produced the candidates [0 .. n], in
    that order, each with the response to its own code-generating call. *)
Definition produced (cfg : Config) (n : Z) (tr tr' : list event) : Prop :=
  ∃ raws : list string,
    length raws = Z.to_nat (n + 1) ∧
    candidates tr' = candidates tr
      ++ zip (candidate_name (target cfg) <$> seqZ 0 (n + 1)) raws ∧
    generated tr' = generated tr ++ zip (expected_calls cfg n) raws.

(** [png] is the render of the raw response [raw]. *)
Definition render_of (w : World) (cfg : Config) (raw png : string) : Prop :=
  ∃ code, extract_svg w raw = Ok code ∧ render w (viewbox cfg) code = Some png.






(** [cached name s]: the generator holds a model loaded under [name]. *)
Definition cached (name : string) (s : state) : Prop :=
  is_Some (self_reward_model (generator s))
  ∧ self_reward_model_name (generator s) = Some name.

(** ** Reasoning rules for statements *)

(** Whatever the outcome of [m] from a state in [P], the outcome and the
    state reached are in [Q]. *)
Definition hoare {A : Type} (P : state → Prop) (m : M A)
    (Q : result A → state → Prop) : Prop :=
  ∀ s r s', P s → m s = (r, s') → Q r s'.

(** However [m] ends, it has only appended events that are in [P]. *)
Definition quiet {A : Type} (P : event → Prop) (m : M A) : Prop :=
  ∀ s r s', m s = (r, s') → ∃ ext, trace s' = trace s ++ ext ∧ Forall P ext.

(** The events of a selection, and of what surrounds tasks 1 to 3. *)
Definition inert (e : event) : Prop :=
  match e with
  | NewSession _ _ | LoadModel _ | InferenceRank _ _ | ClipEncode _ _
  | Copy _ _ => True
  | _ => False
  end.

(** ** Test doubles *)

(** A world whose language model answers with a text made from the message
    file of the call, whose renderer succeeds on the codes that [renders]
    accepts, whose ranking model answers [ranking] and whose dual encoder
    gives the cosine [sim]. *)
Definition double (ranking : result (list Z)) (renders : string → bool)
    (sim : string → Q) : World :=
  {| session_send := λ _ c _, Ok ("<svg>" +:+ file_path c +:+ "</svg>");
     extract_svg := λ raw, Ok raw;
     render := λ _ code, if renders code then Some ("png:" +:+ code) else None;
     inference_rank := λ _ _, ranking;
     cosine := λ _ png, sim png;
     get_prompt := λ t, "A " +:+ t;
     mkdtemp := λ tr, "/tmp/tmp" +:+ pretty (length tr) |}.

Definition cli (folder : string) (n : Z) (scorer : string) : Main.Args :=
  {| Main.arg_target := "cat";
     Main.arg_output_path := "out";
     Main.arg_output_folder := folder;
     Main.arg_viewbox := 512;
     Main.arg_refine_iter := n;
     Main.arg_model := "claude-3-5-sonnet-20240620";
     Main.arg_reward_model := scorer |}.

Definition request (fields : list (string * pyval))
  : gmap string (gmap string pyval) :=
  {[ "input" := list_to_map fields ]}.

(** Every render succeeds and the ranking model puts the first image first. *)
Definition plain : World := double (Ok [1]) (λ _, true) (λ _, 0%Q).

(** Every render succeeds and the ranking model answers [[2; 1; 3]]. *)
Definition second_first : World := double (Ok [2; 1; 3]) (λ _, true) (λ _, 0%Q).

(** Every render succeeds and the ranking model puts the third of eleven
    images first. *)
Definition third_first : World :=
  double (Ok [3; 1; 2; 4; 5; 6; 7; 8; 9; 10; 11]) (λ _, true) (λ _, 0%Q).

(** The render of the initial candidate of [cli "f" _ _] fails, the others
    succeed; the ranking model puts the first of two images first. *)
Definition first_render_fails : World :=
  double (Ok [1; 2])
    (λ code, negb (bool_decide (code = "<svg>out/f/stage_1/raw_logs/cat_raw0</svg>")))
    (λ _, 0%Q).

(** No render succeeds; the ranking model orders the images it is given
    (none), or always puts the first image first. *)
Definition no_render : World := double (Ok []) (λ _, false) (λ _, 0%Q).
Definition no_render_first : World := double (Ok [1]) (λ _, false) (λ _, 0%Q).

(** Every render succeeds; candidates 1 and 2 of [cli "f" _ _] tie for the
    largest similarity. *)
Definition tie_1_2 : World :=
  double (Ok [1]) (λ _, true)
    (λ png, if bool_decide (png = "out/f/stage_1/png_logs/cat_0.png")
            then (1 # 2)%Q else (9 # 10)%Q).

Definition scorer_request (scorer : string) : gmap string (gmap string pyval) :=
  request [("prompt", PyStr "A cat sitting"); ("refine_iter", PyInt 0);
           ("reward_model", PyStr scorer)].

(** ** Further predicates on statements and states *)

(** [s] has no character other than white space: what makes [s.strip()]
    empty. *)
Fixpoint all_space (s : string) : bool :=
  match s with
  | EmptyString => true
  | String c s' => py_isspace c && all_space s'
  end.

Definition any_event (e : event) : Prop := True.


(** A call to the language model that raised. *)
Definition failed_send (e : event) : bool :=
  match e with Send _ _ (Raise _) => true | _ => false end.

Definition no_failed_send (lo : nat) (s : state) : Prop :=
  ∀ p e, (lo ≤ p)%nat → trace s !! p = Some e → failed_send e = false.

(** A failed call from position [lo] on is the last event of the trace,
    and its exception is the outcome [r]. *)
Definition stops_at_failure {A : Type} (lo : nat) (r : result A) (s : state)
  : Prop :=
  ∀ p c seen e, (lo ≤ p)%nat → trace s !! p = Some (Send c seen (Raise e)) →
    r = Raise e ∧ S p = length (trace s).

Definition clean_or_stopped {A : Type} (lo : nat) (r : result A) (s : state)
  : Prop :=
  match r with
  | Ok _ => no_failed_send lo s
  | Raise _ => stops_at_failure lo r s
  end.

(** However [m] ends, the files are what they were. *)
Definition keeps_files {A : Type} (m : M A) : Prop :=
  ∀ s r s', m s = (r, s') → files s' = files s.

(** However [m] ends, it has removed no file and has written only at
    paths in [ok]. *)
Definition writes_only {A : Type} (ok : string → Prop) (m : M A) : Prop :=
  ∀ s r s', m s = (r, s') →
    (∀ p, ¬ ok p → files s' !! p = files s !! p)
    ∧ (∀ p, is_Some (files s !! p) → is_Some (files s' !! p)).

(** If [m] raises, the files are what they were. *)
Definition unchanged_on_failure {A : Type} (m : M A) : Prop :=
  ∀ s e s', m s = (Raise e, s') → files s' = files s.



(** Two runs end in the same state, both with a result or both with the
    same exception. *)
Definition same_outcome {A B : Type} (x : result A * state) (y : result B * state)
  : Prop :=
  x.2 = y.2
  ∧ match x.1, y.1 with
    | Ok _, Ok _ => True
    | Raise e, Raise e' => e = e'
    | _, _ => False
    end.

(** The language model of [plain], except that every refinement call
    fails. *)
Definition refine_fails : World :=
  {| session_send := λ tr c seen,
       if bool_decide (task_name c = "svg_refine")
       then Raise (CollaboratorError "overloaded")
       else session_send plain tr c seen;
     extract_svg := extract_svg plain;
     render := render plain;
     inference_rank := inference_rank plain;
     cosine := cosine plain;
     get_prompt := get_prompt plain;
     mkdtemp := mkdtemp plain |}.

(** * Properties *)

(** ** Statements in sequence *)

Lemma bind_inv {A B : Type} (m : M A) (f : A → M B) s r s' :
  (m ≫= f) s = (r, s') →
  (∃ a s1, m s = (Ok a, s1) ∧ f a s1 = (r, s'))
  ∨ (∃ e, m s = (Raise e, s') ∧ r = Raise e).
Proof.
  unfold mbind, M_bind. destruct (m s) as [[a|e] s1]; intros H.
  - left. eauto.
  - right. inversion H; subst. eauto.
Qed.

Lemma bind_ok_inv {A B : Type} (m : M A) (f : A → M B) s b s' :
  (m ≫= f) s = (Ok b, s') →
  ∃ a s1, m s = (Ok a, s1) ∧ f a s1 = (Ok b, s').
Proof.
  intros H. apply bind_inv in H as [H | (e & _ & ?)]; [done | discriminate].
Qed.

Lemma bind_ok {A B : Type} (m : M A) (f : A → M B) s a s1 :
  m s = (Ok a, s1) → (m ≫= f) s = f a s1.
Proof. unfold mbind, M_bind. by intros ->. Qed.

Lemma hoare_bind {A B : Type} (P : state → Prop) (m : M A) (f : A → M B)
    (R : A → state → Prop) (Q : result B → state → Prop) :
  hoare P m (λ r s, match r with Ok a => R a s | Raise e => Q (Raise e) s end) →
  (∀ a, hoare (R a) (f a) Q) →
  hoare P (m ≫= f) Q.
Proof.
  intros Hm Hf s r s' HP H.
  apply bind_inv in H as [(a & s1 & Hs & H) | (e & Hs & ->)].
  - eapply Hf; [|done]. apply (Hm _ _ _ HP Hs).
  - apply (Hm _ _ _ HP Hs).
Qed.

Lemma hoare_ret {A : Type} (P : state → Prop) (a : A)
    (Q : result A → state → Prop) :
  (∀ s, P s → Q (Ok a) s) → hoare P (mret a) Q.
Proof. intros H s r s' HP [= <- <-]. by apply H. Qed.



(** ** Quiet statements *)

Lemma quiet_bind {A B : Type} (P : event → Prop) (m : M A) (f : A → M B) :
  quiet P m → (∀ a, quiet P (f a)) → quiet P (m ≫= f).
Proof.
  intros Hm Hf s r s' H.
  apply bind_inv in H as [(a & s1 & Hs & H) | (e & Hs & ->)].
  - apply Hm in Hs as (ext1 & Ht1 & HP1).
    apply Hf in H as (ext2 & Ht2 & HP2).
    exists (ext1 ++ ext2).
    rewrite Ht2, Ht1, app_assoc. split; [done|]. by apply Forall_app.
  - by apply Hm in Hs.
Qed.

Lemma quiet_still {A : Type} (P : event → Prop) (m : M A) :
  (∀ s r s', m s = (r, s') → trace s' = trace s) → quiet P m.
Proof.
  intros Hm s r s' H. apply Hm in H as Ht.
  exists []. by rewrite app_nil_r.
Qed.

Lemma quiet_ret {A : Type} (P : event → Prop) (a : A) : quiet P (mret a).
Proof. apply quiet_still. by intros s r s' [= <- <-]. Qed.

Lemma quiet_raise {A : Type} (P : event → Prop) (e : exn) : quiet P (@raise A e).
Proof. apply quiet_still. by intros s r s' [= <- <-]. Qed.

Lemma quiet_lift {A : Type} (P : event → Prop) (x : result A) : quiet P (lift x).
Proof. apply quiet_still. by intros s r s' [= <- <-]. Qed.

Lemma quiet_log (P : event → Prop) (e : event) : P e → quiet P (log e).
Proof.
  intros He s r s' [= <- <-]. exists [e]. split; [done|]. by constructor.
Qed.

Lemma quiet_write_file (P : event → Prop) path content :
  quiet P (write_file path content).
Proof. apply quiet_still. by intros s r s' [= <- <-]. Qed.

Lemma quiet_read_file (P : event → Prop) path : quiet P (read_file path).
Proof.
  apply quiet_still. intros s r s'. unfold read_file.
  by destruct (files s !! path); intros [= <- <-].
Qed.

Lemma quiet_path_exists (P : event → Prop) path : quiet P (path_exists path).
Proof. apply quiet_still. by intros s r s' [= <- <-]. Qed.

Lemma quiet_sorted_glob_png (P : event → Prop) dir : quiet P (sorted_glob_png dir).
Proof. apply quiet_still. by intros s r s' [= <- <-]. Qed.

Lemma quiet_get_generator (P : event → Prop) : quiet P get_generator.
Proof. apply quiet_still. by intros s r s' [= <- <-]. Qed.

Lemma quiet_put_generator (P : event → Prop) g : quiet P (put_generator g).
Proof. apply quiet_still. by intros s r s' [= <- <-]. Qed.

Lemma quiet_get_trace (P : event → Prop) : quiet P get_trace.
Proof. apply quiet_still. by intros s r s' [= <- <-]. Qed.

Lemma quiet_py_assert (P : event → Prop) cond msg : quiet P (py_assert cond msg).
Proof. unfold py_assert. destruct cond; [apply quiet_ret|apply quiet_raise]. Qed.

Lemma quiet_copy src dst : quiet inert (copy src dst).
Proof.
  unfold copy.
  apply quiet_bind; [by apply quiet_log|]. intros _.
  apply quiet_bind; [apply quiet_read_file|]. intros content.
  apply quiet_write_file.
Qed.

Lemma quiet_best_index_of w model_name prompt png_files :
  quiet inert (best_index_of w model_name prompt png_files).
Proof.
  unfold best_index_of. case_bool_decide.
  - apply quiet_bind; [by apply quiet_log|]. intros _.
    apply quiet_bind; [apply quiet_lift|]. intros [|r rest].
    + apply quiet_raise.
    + apply quiet_ret.
  - destruct png_files; [apply quiet_raise|].
    apply quiet_bind; [by apply quiet_log|]. intros _.
    apply quiet_bind; [apply quiet_lift|]. intros i. apply quiet_ret.
Qed.

Lemma quiet_load_for model_name :
  quiet inert
    (if bool_decide (model_name = "ImageReward")
     then log (LoadModel "ImageReward-v1.0")
     else log (LoadModel "ViT-B/32")).
Proof. case_bool_decide; by apply quiet_log. Qed.

Lemma quiet_main_select w cfgs model_name :
  quiet inert (Main.select_best_svg w cfgs model_name).
Proof.
  unfold Main.select_best_svg.
  apply quiet_bind; [apply quiet_py_assert|]. intros _.
  apply quiet_bind; [apply quiet_load_for|]. intros _.
  apply quiet_bind; [apply quiet_sorted_glob_png|]. intros png_files.
  apply quiet_bind; [apply quiet_best_index_of|]. intros best_index.
  apply quiet_copy.
Qed.

Lemma quiet_api_select w cfg : quiet inert (ApiWrapper._select_best_svg w cfg).
Proof.
  unfold ApiWrapper._select_best_svg.
  apply quiet_bind; [apply quiet_py_assert|]. intros _.
  apply quiet_bind; [apply quiet_load_for|]. intros _.
  apply quiet_bind; [apply quiet_sorted_glob_png|]. intros png_files.
  apply quiet_bind; [apply quiet_best_index_of|]. intros best_index.
  apply quiet_bind; [apply quiet_copy|]. intros _. apply quiet_ret.
Qed.

Lemma quiet_initialize_session model prompts_file :
  quiet inert (Handler.initialize_session model prompts_file).
Proof.
  unfold Handler.initialize_session.
  apply quiet_bind; [apply quiet_get_generator|]. intros g.
  destruct (match self_session g with
            | Some m => negb (py_eqb m model) | None => true end).
  - apply quiet_bind; [by apply quiet_log|]. intros _. apply quiet_put_generator.
  - apply quiet_ret.
Qed.

Lemma quiet_initialize_reward_model model_name :
  quiet inert (Handler.initialize_reward_model model_name).
Proof.
  unfold Handler.initialize_reward_model.
  apply quiet_bind; [apply quiet_get_generator|]. intros g.
  destruct (_ || _); [|apply quiet_ret].
  apply quiet_bind; [apply quiet_get_trace|]. intros tr.
  case_bool_decide;
    (apply quiet_bind; [by apply quiet_log|]; intros _; apply quiet_put_generator).
Qed.

Lemma quiet_handler_select w svg_dir png_dir prompt target model_name :
  quiet inert (Handler.select_best_svg w svg_dir png_dir prompt target model_name).
Proof.
  unfold Handler.select_best_svg.
  apply quiet_bind; [apply quiet_initialize_reward_model|]. intros _.
  apply quiet_bind; [apply quiet_sorted_glob_png|]. intros [|f fs].
  - apply quiet_raise.
  - apply quiet_bind; [apply quiet_best_index_of|]. intros best_index.
    apply quiet_ret.
Qed.

Lemma quiet_collect_svgs cfg idxs : quiet inert (Handler.collect_svgs cfg idxs).
Proof.
  induction idxs as [|i rest IH]; cbn [Handler.collect_svgs].
  - apply quiet_ret.
  - apply quiet_bind; [apply quiet_path_exists|]. intros [|]; [|done].
    apply quiet_bind; [apply quiet_read_file|]. intros content.
    apply quiet_bind; [done|]. intros more. apply quiet_ret.
Qed.


Lemma inert_candidates ext : Forall inert ext → candidates ext = [].
Proof.
  induction 1 as [|e ext He _ IH]; [done|]. unfold candidates in *.
  simpl. destruct e; try done.
Qed.

Lemma inert_generated ext : Forall inert ext → generated ext = [].
Proof.
  induction 1 as [|e ext He _ IH]; [done|]. unfold generated in *.
  simpl. destruct e; try done.
Qed.

(** ** What one call appends to the trace *)

Lemma send_inv w c s r s' :
  send w c s = (r, s') →
  files s' = files s ∧ generator s' = generator s
  ∧ trace s' = trace s
      ++ [Send c ((λ p, files s !! p) <$> default [] (images c)) r].
Proof. unfold send. intros [= <- <-]. done. Qed.

Lemma log_inv e s r s' :
  log e s = (r, s') →
  r = Ok tt ∧ files s' = files s ∧ generator s' = generator s
  ∧ trace s' = trace s ++ [e].
Proof. unfold log. intros [= <- <-]. done. Qed.

Lemma save_svg_inv w cfg raw name s r s' :
  save_svg w cfg raw name s = (r, s') →
  trace s' = trace s ++ [SaveSvg name raw] ∧ generator s' = generator s
  ∧ (r = Ok tt → ∀ png, render_of w cfg raw png →
       files s' !! (png_dir cfg +:+ "/" +:+ name +:+ ".png") = Some png).
Proof.
  unfold save_svg. intros H.
  apply bind_inv in H as [(? & s1 & Hl & H) | (e & Hl & ->)];
    apply log_inv in Hl as (_ & _ & Hg1 & Ht1); [|done].
  apply bind_inv in H as [(code & s2 & Hx & H) | (e & Hx & ->)];
    unfold lift in Hx; injection Hx as Hcode Hs; subst; [|done].
  apply bind_inv in H as [(? & s3 & Hw & H) | (e & Hw & ->)];
    unfold write_file in Hw; inversion Hw; subst; clear Hw.
  destruct (render w (viewbox cfg) code) as [png|] eqn:Hrender.
  - unfold write_file in H. inversion H; subst. cbn [trace files set_files].
    split; [done|]. split; [done|].
    intros _ png' (code' & Hcode' & Hrender').
    assert (code' = code) as -> by congruence.
    assert (png' = png) as -> by congruence.
    apply lookup_insert_eq.
  - inversion H; subst. split; [done|]. split; [done|].
    intros _ png' (code' & Hcode' & Hrender').
    assert (code' = code) as -> by congruence. congruence.
Qed.

Lemma candidates_app tr1 tr2 :
  candidates (tr1 ++ tr2) = candidates tr1 ++ candidates tr2.
Proof. apply omap_app. Qed.

Lemma generated_app tr1 tr2 :
  generated (tr1 ++ tr2) = generated tr1 ++ generated tr2.
Proof. apply omap_app. Qed.

Lemma loads_app tr1 tr2 : loads (tr1 ++ tr2) = loads tr1 ++ loads tr2.
Proof. apply omap_app. Qed.

Lemma copies_app tr1 tr2 : copies (tr1 ++ tr2) = copies tr1 ++ copies tr2.
Proof. apply omap_app. Qed.

Lemma seqZ_S i0 (k : nat) :
  seqZ i0 (Z.of_nat (S k)) = i0 :: seqZ (i0 + 1) (Z.of_nat k).
Proof. rewrite seqZ_cons by lia. f_equal. f_equal; lia. Qed.

(** ** The refinement loop, when every round goes through *)

Lemma refine_step_ok w cfg i rest png s r s' :
  refine_loop w cfg (i :: rest) png s = (Ok r, s') →
  ∃ raw seen s1,
    trace s1 = trace s ++
        [Send (SendCall "svg_refine" None (Some [png]) (msg_path cfg i)) seen
           (Ok raw);
         Save (msg_path cfg i) raw;
         SaveSvg (candidate_name (target cfg) i) raw]
    ∧ refine_loop w cfg rest (png_path cfg i) s1 = (Ok r, s').
Proof.
  cbn [refine_loop]. intros H.
  apply bind_ok_inv in H as (raw & s1 & Hs & H).
  apply send_inv in Hs as (_ & _ & Ht1).
  apply bind_ok_inv in H as (? & s2 & Hv & H).
  apply log_inv in Hv as (_ & _ & _ & Ht2).
  apply bind_ok_inv in H as (? & s3 & Hg & H).
  apply save_svg_inv in Hg as (Ht3 & _).
  eexists raw, _, s3. split; [|done].
  rewrite Ht3, Ht2, Ht1, <- !app_assoc. done.
Qed.

Lemma refine_loop_candidates w cfg (k : nat) : ∀ i0 png s r s',
  refine_loop w cfg (seqZ i0 (Z.of_nat k)) png s = (Ok r, s') →
  ∃ raws, length raws = k ∧
    candidates (trace s') = candidates (trace s)
      ++ zip (candidate_name (target cfg) <$> seqZ i0 (Z.of_nat k)) raws ∧
    generated (trace s') = generated (trace s)
      ++ zip ((λ i, ("svg_refine", msg_path cfg i)) <$> seqZ i0 (Z.of_nat k)) raws.
Proof.
  induction k as [|k IH]; intros i0 png s r s' H.
  - simpl in H. inversion H; subst. exists []. rewrite !app_nil_r. done.
  - rewrite seqZ_S in H |- *.
    apply refine_step_ok in H as (raw & seen & s1 & Ht & H).
    apply IH in H as (raws & Hlen & Hc & Hg).
    exists (raw :: raws). split; [simpl; lia|].
    rewrite Hc, Hg, Ht, candidates_app, generated_app. simpl.
    rewrite <- !app_assoc. done.
Qed.

(** Tasks 1 to 3, when they go through: one candidate for the initial
    generation and one per index of [range(1, refine_iter + 1)]. *)
Lemma generation_candidates w cfg n s e s' :
  as_int (refine_iter cfg) = Some n →
  generation w cfg s = (Ok e, s') →
  ∃ raws, length raws = S (Z.to_nat n) ∧
    candidates (trace s') = candidates (trace s)
      ++ zip (candidate_name (target cfg) <$> 0 :: seqZ 1 n) raws ∧
    generated (trace s') = generated (trace s)
      ++ zip (expected_calls cfg n) raws.
Proof.
  intros Hn H. unfold generation in H. unfold expected_calls.
  apply bind_ok_inv in H as (ex & s1 & Hs & H).
  apply send_inv in Hs as (_ & _ & Ht1).
  apply bind_ok_inv in H as (? & s2 & Hv & H).
  apply log_inv in Hv as (_ & _ & _ & Ht2).
  apply bind_ok_inv in H as (raw0 & s3 & Hs & H).
  apply send_inv in Hs as (_ & _ & Ht3).
  apply bind_ok_inv in H as (? & s4 & Hv & H).
  apply log_inv in Hv as (_ & _ & _ & Ht4).
  apply bind_ok_inv in H as (? & s5 & Hg & H).
  apply save_svg_inv in Hg as (Ht5 & _).
  apply bind_ok_inv in H as (idxs & s6 & Hr & H).
  unfold lift, range_from_1 in Hr. rewrite Hn in Hr. inversion Hr; subst idxs s6.
  apply bind_ok_inv in H as (? & s7 & Hl & H).
  inversion H; subst e s7. clear H Hr.
  destruct (decide (0 ≤ n)) as [Hpos|Hneg].
  - rewrite <- (Z2Nat.id n) in Hl |- * by done.
    apply refine_loop_candidates in Hl as (raws & Hlen & Hc & Hg).
    exists (raw0 :: raws). rewrite Nat2Z.id. split; [simpl; lia|].
    rewrite Hc, Hg, Ht5, Ht4, Ht3, Ht2, Ht1.
    rewrite !candidates_app, !generated_app. simpl.
    rewrite <- !app_assoc. done.
  - rewrite seqZ_nil in Hl |- * by lia. simpl in Hl. inversion Hl; subst.
    exists [raw0]. replace (Z.to_nat n) with 0%nat by lia. split; [done|].
    rewrite Ht5, Ht4, Ht3, Ht2, Ht1.
    rewrite !candidates_app, !generated_app. simpl.
    rewrite <- !app_assoc. done.
Qed.

(** ** The image discipline of [send] *)











(** ** The entry points around tasks 1 to 3 *)

(** What a run of [generate_svg] that returns went through. *)
Lemma generate_svg_inv w prompt target viewbox refine_iter model reward_model
    prompts_file s resp s' :
  Handler.generate_svg w prompt target viewbox refine_iter model reward_model
    prompts_file s = (Ok resp, s') →
  let cfg := Handler.make_cfg (mkdtemp w (trace s)) prompt target viewbox
               refine_iter model reward_model prompts_file in
  ∃ s1 e s2 ext1 ext2,
    trace s1 = trace s ++ ext1 ∧ Forall inert ext1 ∧
    generation w cfg s1 = (Ok e, s2) ∧
    trace s' = trace s2 ++ ext2 ∧ Forall inert ext2.
Proof.
  intros H cfg. unfold Handler.generate_svg, Handler.with_temp_dir in H.
  match type of H with
  | (let '(_, _) := ?m ?s0 in _) = _ => destruct (m s0) as [r s3] eqn:Hbody
  end.
  inversion H; subst r s'. clear H.
  apply bind_ok_inv in Hbody as (? & s0 & Hrm & Hbody).
  unfold Handler.remove_tree in Hrm. inversion Hrm; subst s0. clear Hrm.
  fold cfg in Hbody.
  apply bind_ok_inv in Hbody as (? & s1 & Hsess & Hbody).
  apply quiet_initialize_session in Hsess as (ext1 & Ht1 & He1).
  apply bind_ok_inv in Hbody as (e & s2 & Hgen & Htail).
  exists s1, e, s2, ext1.
  assert (quiet inert (λ s, (let f := λ '(best_svg_path, best_index),
     best_svg_content ← read_file best_svg_path;
     best_png ← read_file (png_path cfg best_index);
     idxs ← lift (Handler.range_from_0 refine_iter);
     all_svgs ← Handler.collect_svgs cfg idxs;
     mret (Handler.Success best_svg_content best_index best_png all_svgs
             {| Handler.md_prompt := prompt;
                Handler.md_expanded_prompt := e;
                Handler.md_target := target;
                Handler.md_model := model;
                Handler.md_reward_model := reward_model;
                Handler.md_refine_iterations := refine_iter;
                Handler.md_total_generated := length all_svgs |}) in
     Handler.select_best_svg w (svg_dir cfg) (png_dir cfg) prompt (py_str target)
       reward_model ≫= f) s)) as Hq.
  { apply quiet_bind; [apply quiet_handler_select|]. intros [path idx].
    apply quiet_bind; [apply quiet_read_file|]. intros c1.
    apply quiet_bind; [apply quiet_read_file|]. intros c2.
    apply quiet_bind; [apply quiet_lift|]. intros idxs.
    apply quiet_bind; [apply quiet_collect_svgs|]. intros all. apply quiet_ret. }
  apply Hq in Htail as (ext2 & Ht2 & He2).
  exists ext2. simpl. repeat split; done.
Qed.

Lemma seqZ_0_succ n : 0 ≤ n → seqZ 0 (n + 1) = 0 :: seqZ 1 n.
Proof.
  intros Hn. rewrite seqZ_cons by lia. f_equal. f_equal; lia.
Qed.

Lemma produced_of_generation w cfg n s1 e s2 tr tr' ext1 ext2 :
  as_int (refine_iter cfg) = Some n → 0 ≤ n →
  generation w cfg s1 = (Ok e, s2) →
  trace s1 = tr ++ ext1 → Forall inert ext1 →
  tr' = trace s2 ++ ext2 → Forall inert ext2 →
  produced cfg n tr tr'.
Proof.
  intros Hn Hpos Hgen Ht1 He1 -> He2.
  destruct (generation_candidates _ _ _ _ _ _ Hn Hgen) as (raws & Hlen & Hc & Hg).
  exists raws. rewrite seqZ_0_succ by done. split; [lia|].
  rewrite candidates_app, generated_app, Hc, Hg, Ht1.
  rewrite candidates_app, generated_app.
  rewrite (inert_candidates ext1), (inert_candidates ext2) by done.
  rewrite (inert_generated ext1), (inert_generated ext2) by done.
  by rewrite !app_nil_r.
Qed.

Lemma main_inv w cfgs s s' :
  Main.main w cfgs s = (Ok tt, s') →
  ∃ s1 e s2 ext1 ext2,
    trace s1 = trace s ++ ext1 ∧ Forall inert ext1 ∧
    generation w cfgs s1 = (Ok e, s2) ∧
    trace s' = trace s2 ++ ext2 ∧ Forall inert ext2.
Proof.
  unfold Main.main. intros H.
  apply bind_ok_inv in H as (? & s1 & Hl & H).
  apply log_inv in Hl as (_ & _ & _ & Ht1).
  apply bind_ok_inv in H as (e & s2 & Hgen & H).
  apply quiet_main_select in H as (ext2 & Ht2 & He2).
  exists s1, e, s2, [NewSession (model cfgs) (prompts_file cfgs)], ext2.
  repeat split; try done. by repeat constructor.
Qed.

Lemma api_inv w cfg s res s' :
  ApiWrapper._execute_generation w cfg s = (Ok res, s') →
  ∃ s1 e s2 ext1 ext2,
    trace s1 = trace s ++ ext1 ∧ Forall inert ext1 ∧
    generation w cfg s1 = (Ok e, s2) ∧
    trace s' = trace s2 ++ ext2 ∧ Forall inert ext2.
Proof.
  unfold ApiWrapper._execute_generation. intros H.
  apply bind_ok_inv in H as (? & s1 & Hl & H).
  apply log_inv in Hl as (_ & _ & _ & Ht1).
  apply bind_ok_inv in H as (e & s2 & Hgen & H).
  apply bind_ok_inv in H as (best_index & s3 & Hsel & H).
  apply quiet_api_select in Hsel as (ext2 & Ht2 & He2).
  apply bind_ok_inv in H as (n & s4 & Hn & H).
  unfold lift in Hn. inversion Hn; subst s4. inversion H; subst s'.
  exists s1, e, s2, [NewSession (model cfg) (prompts_file cfg)], ext2.
  repeat split; try done. by repeat constructor.
Qed.

(** C2. For every non-negative [refine_iter = n], a run of [main] that
    completes has produced exactly [n + 1] candidates, named
    [{target}_0 .. {target}_n] in that order: the answer to one
    [write_svg_code] call followed by the answers to [n] [svg_refine]
    calls, each candidate carrying the raw response of its own call. *)
Theorem main_produces_candidates w cfgs n s s' :
  as_int (refine_iter cfgs) = Some n → 0 ≤ n →
  Main.main w cfgs s = (Ok tt, s') →
  produced cfgs n (trace s) (trace s').
Proof.
  intros Hn Hpos H.
  apply main_inv in H as (s1 & e & s2 & ext1 & ext2 & Ht1 & He1 & Hgen & Ht2 & He2).
  by eapply produced_of_generation.
Qed.

(** X21. The same for the wrapper: a call of [_execute_generation] that
    returns has handed exactly the candidates [{target}_0 .. {target}_n] to
    [save_svg], in that order, each with the answer to its own
    code-generating call, and reports [total_iterations = n + 1]. *)
Lemma api_produces_candidates w cfg n s res s' :
  as_int (refine_iter cfg) = Some n → 0 ≤ n →
  ApiWrapper._execute_generation w cfg s = (Ok res, s') →
  produced cfg n (trace s) (trace s') ∧ ApiWrapper.res_total_iterations res = n + 1.
Proof.
  intros Hn Hpos H. split.
  - apply api_inv in H as (s1 & e & s2 & ext1 & ext2 & Ht1 & He1 & Hgen & Ht2 & He2).
    by eapply produced_of_generation.
  - unfold ApiWrapper._execute_generation in H.
    apply bind_ok_inv in H as (? & s1 & _ & H).
    apply bind_ok_inv in H as (e & s2 & _ & H).
    apply bind_ok_inv in H as (best_index & s3 & _ & H).
    rewrite Hn in H. apply bind_ok_inv in H as (m & s4 & Hm & H).
    unfold lift in Hm. inversion Hm; subst. by inversion H.
Qed.

(** X22. The same for the handler: a call of [generate_svg] that returns
    has handed exactly the candidates [{target}_0 .. {target}_n] to
    [save_svg], in that order, each with the answer to its own
    code-generating call. *)
Lemma handler_produces_candidates w prompt target viewbox refine_iter model
    reward_model prompts_file n s resp s' :
  as_int refine_iter = Some n → 0 ≤ n →
  Handler.generate_svg w prompt target viewbox refine_iter model reward_model
    prompts_file s = (Ok resp, s') →
  produced (Handler.make_cfg (mkdtemp w (trace s)) prompt target viewbox
              refine_iter model reward_model prompts_file)
    n (trace s) (trace s').
Proof.
  intros Hn Hpos H.
  apply generate_svg_inv in H
    as (s1 & e & s2 & ext1 & ext2 & Ht1 & He1 & Hgen & Ht2 & He2).
  by eapply produced_of_generation.
Qed.








(** ** The scan for the maximum *)







(** ** Selection *)

Lemma best_index_rank w prompt png_files s r rest :
  inference_rank w prompt png_files = Ok (r :: rest) →
  best_index_of w "ImageReward" prompt png_files s
  = (Ok (r - 1), set_trace (trace s ++ [InferenceRank prompt png_files]) s).
Proof.
  intros Hr. unfold best_index_of. rewrite bool_decide_eq_true_2 by done.
  unfold mbind, M_bind, log, lift. by rewrite Hr.
Qed.


(** [initialize_reward_model] never raises and touches no file; it loads
    exactly when no model is held or the held one has another name. *)
Lemma initialize_reward_model_spec model_name s :
  (cached model_name s
   ∧ Handler.initialize_reward_model model_name s = (Ok tt, s))
  ∨ (¬ cached model_name s
     ∧ ∃ s1, Handler.initialize_reward_model model_name s = (Ok tt, s1)
         ∧ files s1 = files s
         ∧ cached model_name s1
         ∧ trace s1 = trace s ++
             [LoadModel (if bool_decide (model_name = "ImageReward")
                         then "ImageReward-v1.0" else "ViT-B/32")]
         ∧ self_reward_model (generator s1)
           = Some (Loaded (if bool_decide (model_name = "ImageReward")
                           then "ImageReward-v1.0" else "ViT-B/32")
                     (length (trace s)))).
Proof.
  unfold Handler.initialize_reward_model, cached.
  unfold mbind, M_bind, get_generator, get_trace, log, put_generator, mret, M_ret.
  destruct s as [fs tr [sess rm rmn pre]]. simpl.
  destruct rm as [m|]; simpl.
  - case_bool_decide as Hn; simpl.
    + left. split; [|done]. split; [by eexists|done].
    + right. split; [by intros [_ ?]|].
      case_bool_decide; eexists; (split; [done|]); simpl;
        repeat split; try done; by eexists.
  - right. split; [by intros [[? ?] _]|].
    case_bool_decide; eexists; (split; [done|]); simpl;
      repeat split; try done; by eexists.
Qed.

Lemma initialize_reward_model_ok model_name s :
  ∃ s1, Handler.initialize_reward_model model_name s = (Ok tt, s1)
        ∧ files s1 = files s.
Proof.
  destruct (initialize_reward_model_spec model_name s)
    as [[_ H] | (_ & s1 & H & Hf & _)]; eauto.
Qed.

(** C4. Whatever the prompt and the files in the image directory: when
    the ranking model answers the 1-based ordering [r :: rest] for the
    sorted image sequence, the rank-based scorer selects [r - 1]: the
    handler returns it with [{svg_dir}/{target}_{r-1}.svg], [main] copies
    that file, and the wrapper returns it once the copy has been made. *)
Theorem rank_scorer_first_minus_one w cfg s r rest :
  inference_rank w (prompt cfg) (sorted (glob_png (png_dir cfg) (files s)))
    = Ok (r :: rest) →
  (sorted (glob_png (png_dir cfg) (files s)) ≠ [] →
     (Handler.select_best_svg w (svg_dir cfg) (png_dir cfg) (prompt cfg)
        (target cfg) "ImageReward" s).1
     = Ok (svg_path cfg (r - 1), r - 1))
  ∧ copies (trace (Main.select_best_svg w cfg "ImageReward" s).2)
    = copies (trace s) ++ [(svg_path cfg (r - 1), template_path cfg)]
  ∧ (reward_model cfg = "ImageReward" →
     is_Some (files s !! svg_path cfg (r - 1)) →
     (ApiWrapper._select_best_svg w cfg s).1 = Ok (r - 1)).
Proof.
  intros Hr. split; [|split].
  - intros Hne. unfold Handler.select_best_svg.
    destruct (initialize_reward_model_ok "ImageReward" s) as (s1 & Hinit & Hf).
    rewrite (bind_ok _ _ _ _ _ Hinit).
    unfold sorted_glob_png at 1. unfold mbind at 1, M_bind at 1. rewrite Hf.
    destruct (sorted (glob_png (png_dir cfg) (files s))) as [|f fs] eqn:Hfs; [done|].
    rewrite (bind_ok _ _ _ _ _ (best_index_rank _ _ _ _ _ _ Hr)). done.
  - unfold Main.select_best_svg.
    unfold py_assert, in_supported. simpl bool_decide. simpl orb. cbv iota.
    unfold mbind at 1, M_bind at 1, mret at 1, M_ret at 1.
    unfold mbind at 1, M_bind at 1, log at 1.
    unfold mbind at 1, M_bind at 1, sorted_glob_png at 1. cbn [files set_trace].
    rewrite (bind_ok _ _ _ _ _ (best_index_rank _ _ _ _ _ _ Hr)).
    unfold copy, mbind, M_bind, log, read_file. cbn [files trace set_trace].
    destruct (files s !! _); cbn [write_file trace set_files snd set_trace];
      rewrite !copies_app; simpl; by rewrite !app_nil_r.
  - intros Hrm [content Hc]. unfold ApiWrapper._select_best_svg. rewrite Hrm.
    unfold py_assert, in_supported. simpl bool_decide. simpl orb. cbv iota.
    unfold mbind at 1, M_bind at 1, mret at 1, M_ret at 1.
    unfold mbind at 1, M_bind at 1, log at 1.
    unfold mbind at 1, M_bind at 1, sorted_glob_png at 1. cbn [files set_trace].
    rewrite (bind_ok _ _ _ _ _ (best_index_rank _ _ _ _ _ _ Hr)).
    unfold copy, mbind, M_bind, log, read_file. cbn [files trace set_trace].
    unfold svg_path in Hc. rewrite Hc. done.
Qed.



(** ** The canonical output *)

Lemma copies_inert_tail tr e :
  match e with Copy _ _ => False | _ => True end →
  copies (tr ++ [e]) = copies tr.
Proof. intros He. rewrite copies_app. destruct e; try done; by rewrite app_nil_r. Qed.

Lemma best_index_of_copies w model_name prompt png_files s r s' :
  best_index_of w model_name prompt png_files s = (r, s') →
  files s' = files s ∧ copies (trace s') = copies (trace s).
Proof.
  unfold best_index_of. case_bool_decide.
  - unfold mbind, M_bind, log, lift.
    destruct (inference_rank w prompt png_files) as [[|x rest]|e];
      intros [= <- <-]; split; try done; cbn [trace set_trace];
      by rewrite copies_inert_tail.
  - destruct png_files as [|f fs]; [by intros [= <- <-]|].
    unfold mbind, M_bind, log, lift.
    destruct (argmax _); intros [= <- <-]; split; try done;
      cbn [trace set_trace]; by rewrite copies_inert_tail.
Qed.

(** A selection of the wrapper that returns [best_index] has copied the
    candidate's file to the template path, and nothing else. *)
Lemma api_select_copies w cfg s best_index s' :
  ApiWrapper._select_best_svg w cfg s = (Ok best_index, s') →
  copies (trace s') = copies (trace s)
                      ++ [(svg_path cfg best_index, template_path cfg)]
  ∧ ∃ content, files s !! svg_path cfg best_index = Some content
               ∧ files s' = <[template_path cfg := content]> (files s).
Proof.
  unfold ApiWrapper._select_best_svg. intros H.
  apply bind_ok_inv in H as (? & s1 & Ha & H).
  unfold py_assert in Ha. destruct (in_supported _); [|done].
  inversion Ha; subst s1. clear Ha.
  apply bind_ok_inv in H as (? & s2 & Hl & H).
  assert (files s2 = files s ∧ copies (trace s2) = copies (trace s)) as [Hf2 Hc2].
  { destruct (bool_decide _); apply log_inv in Hl as (_ & Hf & _ & Ht);
      rewrite Ht; by rewrite copies_inert_tail. }
  apply bind_ok_inv in H as (png_files & s3 & Hg & H).
  unfold sorted_glob_png in Hg. inversion Hg; subst s3 png_files. clear Hg.
  apply bind_ok_inv in H as (b & s4 & Hb & H).
  apply best_index_of_copies in Hb as [Hf4 Hc4].
  apply bind_ok_inv in H as (? & s5 & Hcp & H).
  inversion H; subst b s5. clear H.
  unfold copy in Hcp.
  apply bind_ok_inv in Hcp as (? & s6 & Hl6 & Hcp).
  apply log_inv in Hl6 as (_ & Hf6 & _ & Ht6).
  apply bind_ok_inv in Hcp as (content & s7 & Hrd & Hw).
  unfold read_file in Hrd. destruct (files s6 !! _) as [c|] eqn:Hlook; [|done].
  inversion Hrd; subst c s7. clear Hrd.
  unfold write_file in Hw. inversion Hw; subst s'. cbn [trace files set_files].
  split.
  - rewrite Ht6, copies_app, Hc4, Hc2. done.
  - exists content. rewrite Hf6, Hf4, Hf2 in *. done.
Qed.

(** C9 (as amended). A selection that returns has copied the winning
    candidate's file [{svg_dir}/{target}_{best_index}.svg] to
    [{root_dir}/{target}_template.svg]: the canonical path is a function
    of the run's root directory and target, whatever the number of rounds,
    the candidates and the winning index; two runs with the same root
    directory and target write the same path. *)
Theorem canonical_path_of_root_and_target w1 w2 cfg1 cfg2 s1 s2 b1 b2 s1' s2' :
  root_dir cfg1 = root_dir cfg2 → target cfg1 = target cfg2 →
  ApiWrapper._select_best_svg w1 cfg1 s1 = (Ok b1, s1') →
  ApiWrapper._select_best_svg w2 cfg2 s2 = (Ok b2, s2') →
  ∃ dst, dst = root_dir cfg1 +:+ "/" +:+ target cfg1 +:+ "_template.svg"
    ∧ copies (trace s1') = copies (trace s1) ++ [(svg_path cfg1 b1, dst)]
    ∧ copies (trace s2') = copies (trace s2) ++ [(svg_path cfg2 b2, dst)]
    ∧ is_Some (files s1' !! dst)
    ∧ files s1' !! dst = files s1 !! svg_path cfg1 b1
    ∧ files s2' !! dst = files s2 !! svg_path cfg2 b2.
Proof.
  intros Hroot Htarget H1 H2.
  apply api_select_copies in H1 as (Hc1 & c1 & Hsrc1 & Hf1).
  apply api_select_copies in H2 as (Hc2 & c2 & Hsrc2 & Hf2).
  exists (template_path cfg1).
  assert (template_path cfg2 = template_path cfg1) as Heq
    by (unfold template_path; by rewrite Hroot, Htarget).
  rewrite Heq in Hc2, Hf2.
  split; [done|]. split; [done|]. split; [done|].
  rewrite Hf1, Hf2, !lookup_insert_eq. by eauto.
Qed.

(** [main.py]'s selection is the wrapper's, without the returned index. *)
Lemma main_select_as_api w cfg s s' :
  Main.select_best_svg w cfg (reward_model cfg) s = (Ok tt, s') →
  ∃ best_index, ApiWrapper._select_best_svg w cfg s = (Ok best_index, s').
Proof.
  unfold Main.select_best_svg, ApiWrapper._select_best_svg. intros H.
  apply bind_ok_inv in H as (? & s1 & Ha & H). rewrite (bind_ok _ _ _ _ _ Ha).
  apply bind_ok_inv in H as (? & s2 & Hl & H). rewrite (bind_ok _ _ _ _ _ Hl).
  apply bind_ok_inv in H as (fs & s3 & Hg & H). rewrite (bind_ok _ _ _ _ _ Hg).
  apply bind_ok_inv in H as (b & s4 & Hb & H). rewrite (bind_ok _ _ _ _ _ Hb).
  exists b. by rewrite (bind_ok _ _ _ _ _ H).
Qed.

(** Two runs of [main] for the same target, with different output folders,
    write different canonical paths. *)
Lemma canonical_path_differs_for_same_target :
  let cfg_a := Main.parse_arguments plain (cli "a" 2 "ImageReward") in
  let cfg_b := Main.parse_arguments plain (cli "b" 2 "ImageReward") in
  let run_a := Main.main plain cfg_a (init_state ∅) in
  let run_b := Main.main plain cfg_b (init_state ∅) in
  target cfg_a = target cfg_b
  ∧ run_a.1 = Ok tt ∧ run_b.1 = Ok tt
  ∧ copies (trace run_a.2)
    = [("out/a/stage_1/svg_logs/cat_0.svg", "out/a/cat_template.svg")]
  ∧ copies (trace run_b.2)
    = [("out/b/stage_1/svg_logs/cat_0.svg", "out/b/cat_template.svg")]
  ∧ "out/a/cat_template.svg" ≠ "out/b/cat_template.svg".
Proof. vm_compute. repeat split; discriminate. Qed.

(** C1. With [refine_iter = 10] and every render in place, the image
    sequence handed to the scorer is not in candidate-index order: its
    third entry is the render of candidate 10.  The ranking model puts
    that third image first, and [main] copies candidate 2.  With
    [refine_iter = 2] and the render of candidate 0 missing, the sequence
    holds the renders of candidates 1 and 2, the ranking model puts the
    first of them first, and [main] copies candidate 0, the one without a
    render. *)
Theorem position_taken_for_candidate_index :
  let cfg10 := Main.parse_arguments third_first (cli "f" 10 "ImageReward") in
  let run10 := Main.main third_first cfg10 (init_state ∅) in
  let cfg2 := Main.parse_arguments first_render_fails (cli "f" 2 "ImageReward") in
  let run2 := Main.main first_render_fails cfg2 (init_state ∅) in
  (run10.1 = Ok tt
   ∧ scored (trace run10.2)
     = [png_path cfg10 <$> [0; 1; 10; 2; 3; 4; 5; 6; 7; 8; 9]]
   ∧ inference_rank third_first (prompt cfg10)
       (png_path cfg10 <$> [0; 1; 10; 2; 3; 4; 5; 6; 7; 8; 9])
     = Ok [3; 1; 2; 4; 5; 6; 7; 8; 9; 10; 11]
   ∧ copies (trace run10.2) = [(svg_path cfg10 2, template_path cfg10)])
  ∧ (run2.1 = Ok tt
     ∧ files run2.2 !! png_path cfg2 0 = None
     ∧ scored (trace run2.2) = [png_path cfg2 <$> [1; 2]]
     ∧ copies (trace run2.2) = [(svg_path cfg2 0, template_path cfg2)]).
Proof. vm_compute. repeat split. Qed.

(** C6. No candidate has a render.  [main] hands the empty sequence to the
    ranking model and ends with the [IndexError] of [ranking[0]] when the
    model orders the images it was given, with the error of [torch.cat]
    under CLIP, and completes with candidate 0 copied when the model always
    puts the first image first.  The handler stops with
    ["No PNG files found for ranking"] before the scorer is invoked. *)
Theorem empty_sequence_reaches_scorer :
  let cfg := Main.parse_arguments no_render (cli "f" 2 "ImageReward") in
  let run := Main.main no_render cfg (init_state ∅) in
  let run_clip :=
    Main.main no_render (Main.parse_arguments no_render (cli "f" 2 "CLIP"))
      (init_state ∅) in
  let run_first := Main.main no_render_first cfg (init_state ∅) in
  let answer :=
    Handler.handler no_render
      (request [("prompt", PyStr "A cat sitting"); ("target", PyStr "cat")])
      (init_state ∅) in
  (run.1 = Raise (IndexError "list index out of range")
   ∧ scored (trace run.2) = [[]])
  ∧ run_clip.1
    = Raise (RuntimeError "torch.cat(): expected a non-empty list of Tensors")
  ∧ (run_first.1 = Ok tt
     ∧ scored (trace run_first.2) = [[]]
     ∧ copies (trace run_first.2) = [(svg_path cfg 0, template_path cfg)])
  ∧ (answer.1 = Handler.Failure "No PNG files found for ranking"
     ∧ scored (trace answer.2) = []).
Proof. vm_compute. repeat split. Qed.

(** ** Validation of a request *)

(** C7 (as amended). A request to the serverless handler that carries a
    prompt and a scorer name other than ["ImageReward"] and ["CLIP"] is
    answered with an error before anything else happens: no call to the
    language model, no render, no model load, no file written. *)
Theorem handler_rejects_unknown_scorer w event s prompt :
  default ∅ (event !! "input") !! "prompt" = Some prompt →
  in_supported (Handler.get (default ∅ (event !! "input")) "reward_model"
                  (PyStr "ImageReward")) = false →
  Handler.handler w event s
  = (Handler.Failure
       ("Invalid reward_model: "
        +:+ py_str (Handler.get (default ∅ (event !! "input")) "reward_model"
                      (PyStr "ImageReward"))
        +:+ ". Must be 'ImageReward' or 'CLIP'"), s).
Proof.
  intros Hp Hbad. unfold Handler.handler. rewrite Hp, Hbad. done.
Qed.

(** [main] checks the scorer name when the selection starts, after the
    calls to the language model and the renders; the handler runs a request
    whose [refine_iter] is negative. *)
Lemma configuration_checked_late :
  let run :=
    Main.main plain (Main.parse_arguments plain (cli "f" 1 "Aesthetic"))
      (init_state ∅) in
  let answer :=
    Handler.handler plain
      (request [("prompt", PyStr "A cat sitting"); ("refine_iter", PyInt (-1))])
      (init_state ∅) in
  (in_supported (PyStr "Aesthetic") = false
   ∧ run.1 = Raise (AssertionError "Only `ImageReward` and `CLIP` are supported")
   ∧ generated (trace run.2)
     = [("write_svg_code", "out/f/stage_1/raw_logs/cat_raw0",
         "<svg>out/f/stage_1/raw_logs/cat_raw0</svg>");
        ("svg_refine", "out/f/stage_1/raw_logs/cat_raw1",
         "<svg>out/f/stage_1/raw_logs/cat_raw1</svg>")]
   ∧ candidates (trace run.2)
     = [("cat_0", "<svg>out/f/stage_1/raw_logs/cat_raw0</svg>");
        ("cat_1", "<svg>out/f/stage_1/raw_logs/cat_raw1</svg>")])
  ∧ (∃ svg png its md, answer.1 = Handler.Success svg 0 png its md)
  ∧ length (generated (trace answer.2)) = 1%nat.
Proof.
  vm_compute. repeat split. by do 4 eexists.
Qed.

(** ** The cached reward model *)

Lemma best_index_of_generator w model_name prompt png_files s r s' :
  best_index_of w model_name prompt png_files s = (r, s') →
  generator s' = generator s ∧ loads (trace s') = loads (trace s).
Proof.
  unfold best_index_of. case_bool_decide.
  - unfold mbind, M_bind, log, lift.
    destruct (inference_rank w prompt png_files) as [[|x rest]|e];
      intros [= <- <-]; split; try done; cbn [trace set_trace];
      by rewrite loads_app, app_nil_r.
  - destruct png_files as [|f fs]; [by intros [= <- <-]|].
    unfold mbind, M_bind, log, lift.
    destruct (argmax _); intros [= <- <-]; split; try done;
      cbn [trace set_trace]; by rewrite loads_app, app_nil_r.
Qed.

(** A scoring call is [initialize_reward_model] followed by statements
    that neither load a model nor touch the generator. *)
Lemma handler_select_inv w svg_dir png_dir prompt target model_name s r s' :
  Handler.select_best_svg w svg_dir png_dir prompt target model_name s = (r, s') →
  ∃ s1, Handler.initialize_reward_model model_name s = (Ok tt, s1)
        ∧ generator s' = generator s1
        ∧ loads (trace s') = loads (trace s1).
Proof.
  unfold Handler.select_best_svg. intros H.
  destruct (initialize_reward_model_ok model_name s) as (s1 & Hinit & _).
  rewrite (bind_ok _ _ _ _ _ Hinit) in H. exists s1. split; [done|].
  apply bind_inv in H as [(fs & s2 & Hg & H) | (e & Hg & _)];
    unfold sorted_glob_png in Hg; [|by inversion Hg].
  inversion Hg; subst fs s2. clear Hg.
  destruct (sorted _) as [|f fs']; [by inversion H|].
  apply bind_inv in H as [(b & s3 & Hb & H) | (e & Hb & _)];
    apply best_index_of_generator in Hb as [Hgen Hl]; [|done].
  by inversion H; subst.
Qed.

(** C8 (as amended). In the serverless handler, a scoring call whose
    scorer name is the name used by the previous scoring call reuses the
    model instance which that call left in the generator: nothing is
    loaded, and the instance is the same afterwards. *)
Theorem handler_reuses_previous_model w model_name
    svg_dir png_dir prompt target svg_dir' png_dir' prompt' target'
    s0 r1 s1 s2 r2 s3 :
  Handler.select_best_svg w svg_dir png_dir prompt target model_name s0
    = (r1, s1) →
  self_reward_model (generator s2) = self_reward_model (generator s1) →
  self_reward_model_name (generator s2) = self_reward_model_name (generator s1) →
  Handler.select_best_svg w svg_dir' png_dir' prompt' target' model_name s2
    = (r2, s3) →
  is_Some (self_reward_model (generator s1))
  ∧ self_reward_model (generator s3) = self_reward_model (generator s1)
  ∧ loads (trace s3) = loads (trace s2).
Proof.
  intros H1 Hm Hn H2.
  apply handler_select_inv in H1 as (s1' & Hinit1 & Hg1 & _).
  apply handler_select_inv in H2 as (s2' & Hinit2 & Hg2 & Hl2).
  assert (cached model_name s1) as [Hsome Hname].
  { unfold cached. rewrite Hg1.
    destruct (initialize_reward_model_spec model_name s0)
      as [[Hc E] | (_ & s & E & _ & Hc & _)];
      rewrite E in Hinit1; by inversion Hinit1; subst. }
  assert (cached model_name s2) as Hc2.
  { unfold cached. by rewrite Hm, Hn. }
  destruct (initialize_reward_model_spec model_name s2)
    as [[_ E] | (Hnc & _)]; [|done].
  rewrite E in Hinit2. inversion Hinit2; subst s2'.
  split; [done|]. split; [|done]. by rewrite Hg2.
Qed.

(** Three requests in one process, for ["ImageReward"], ["CLIP"] and
    ["ImageReward"]: the weights of ImageReward are loaded twice.  Two runs
    of the wrapper for ["ImageReward"]: the weights are loaded in each. *)
Lemma model_loaded_more_than_once :
  let s1 := (Handler.handler plain (scorer_request "ImageReward") (init_state ∅)).2 in
  let s2 := (Handler.handler plain (scorer_request "CLIP") s1).2 in
  let s3 := (Handler.handler plain (scorer_request "ImageReward") s2).2 in
  let cfg := ApiWrapper.make_cfg "../output" "cat" "A cat sitting" None 512 0
               "claude-3-5-sonnet-20240620" "ImageReward" "prompts" in
  let t1 := (ApiWrapper._execute_generation plain cfg (init_state ∅)).2 in
  let t2 := (ApiWrapper._execute_generation plain cfg t1).2 in
  loads (trace s3) = ["ImageReward-v1.0"; "ViT-B/32"; "ImageReward-v1.0"]
  ∧ loads (trace t2) = ["ImageReward-v1.0"; "ImageReward-v1.0"].
Proof. vm_compute. done. Qed.

(** ** [validate_input] *)

Lemma get_insert_other (j : gmap string pyval) (k : string) (v d : pyval) :
  k ≠ "refine_iter" →
  RunPodConfig.get (<["refine_iter" := v]> j) k d
  = RunPodConfig.get (delete "refine_iter" j) k d.
Proof.
  intros Hk. unfold RunPodConfig.get.
  rewrite lookup_insert_ne by done. rewrite lookup_delete_ne by done. done.
Qed.

(** C10. Take a job input that is accepted when it carries no
    [refine_iter].  With [refine_iter = v] it is accepted if and only if [v]
    is an [int] (for [isinstance], which counts [True] and [False] as 1 and
    0) with [0 <= v <= 10]; a [v] above 10 is rejected with the message
    ["refine_iter too high: ..."], a negative [v] and a [v] that is not an
    [int] with ["Invalid refine_iter: ..."], and the two messages differ. *)
Theorem validate_input_refine_iter (job_input : gmap string pyval) (v : pyval) :
  RunPodConfig.validate_input (delete "refine_iter" job_input) = Ok (true, "") →
  (RunPodConfig.validate_input (<["refine_iter" := v]> job_input) = Ok (true, "")
   ↔ ∃ n, as_int v = Some n ∧ 0 ≤ n ≤ 10)
  ∧ ((∃ n, as_int v = Some n ∧ 10 < n) →
     RunPodConfig.validate_input (<["refine_iter" := v]> job_input)
     = Ok (false, RunPodConfig.msg_refine_iter_too_high v))
  ∧ ((as_int v = None ∨ ∃ n, as_int v = Some n ∧ n < 0) →
     RunPodConfig.validate_input (<["refine_iter" := v]> job_input)
     = Ok (false, RunPodConfig.msg_invalid_refine_iter v))
  ∧ RunPodConfig.msg_refine_iter_too_high v
    ≠ RunPodConfig.msg_invalid_refine_iter v.
Proof.
  unfold RunPodConfig.validate_input.
  rewrite lookup_insert_ne by done. rewrite lookup_delete_ne by done.
  destruct (job_input !! "prompt") as [[| | | |p|]|]; try discriminate.
  destruct (bool_decide (strip p = "")); try discriminate.
  rewrite !get_insert_other by done.
  destruct (negb (in_supported _)); try discriminate.
  destruct (as_int (RunPodConfig.get (delete _ _) "viewbox" _)) as [vb|];
    try discriminate.
  destruct (vb <=? 0); try discriminate.
  intros _.
  assert (Hg : ∀ d, RunPodConfig.get (<["refine_iter" := v]> job_input)
                      "refine_iter" d = v).
  { intros d. unfold RunPodConfig.get. by rewrite lookup_insert_eq. }
  rewrite !Hg. clear Hg.
  split; [|split; [|split]].
  - destruct (as_int v) as [n|] eqn:Hv.
    + destruct (n <? 0) eqn:H0; [|destruct (10 <? n) eqn:H10].
      * split; [discriminate|]. intros (m & [= <-] & ?). lia.
      * split; [discriminate|]. intros (m & [= <-] & ?). lia.
      * split; [|done]. intros _. exists n. split; [done|lia].
    + split; [discriminate|]. intros (m & ? & _). discriminate.
  - intros (n & -> & Hn).
    replace (n <? 0) with false by lia. replace (10 <? n) with true by lia. done.
  - intros [-> | (n & -> & Hn)]; [done|].
    replace (n <? 0) with true by lia. done.
  - discriminate.
Qed.

(** ** The empty image sequence *)

Lemma scored_app tr1 tr2 : scored (tr1 ++ tr2) = scored tr1 ++ scored tr2.
Proof. apply omap_app. Qed.

(** X25. The handler's guard: with no [.png] file in [png_dir] the scoring
    call raises [ValueError] before the scorer is invoked. *)
Lemma handler_select_empty_raises w svg_dir png_dir prompt target model_name s :
  sorted (glob_png png_dir (files s)) = [] →
  ∃ s', Handler.select_best_svg w svg_dir png_dir prompt target model_name s
        = (Raise (ValueError "No PNG files found for ranking"), s')
        ∧ scored (trace s') = scored (trace s).
Proof.
  intros Hempty. unfold Handler.select_best_svg.
  destruct (initialize_reward_model_spec model_name s)
    as [[_ Hinit] | (_ & s1 & Hinit & Hf & _ & Ht & _)];
    rewrite (bind_ok _ _ _ _ _ Hinit);
    unfold sorted_glob_png at 1; unfold mbind at 1, M_bind at 1.
  - rewrite Hempty. by eexists.
  - rewrite Hf, Hempty. eexists. split; [done|].
    rewrite Ht, scored_app. simpl. by rewrite app_nil_r.
Qed.

(** X26. [main.py] has no such guard: under ImageReward the ranking model
    is invoked on the empty sequence, and its answer decides how the
    selection ends. *)
Lemma main_select_empty_reaches_scorer w cfgs s r s' :
  sorted (glob_png (png_dir cfgs) (files s)) = [] →
  Main.select_best_svg w cfgs "ImageReward" s = (r, s') →
  scored (trace s') = scored (trace s) ++ [[]]
  ∧ r = match inference_rank w (prompt cfgs) [] with
        | Raise e => Raise e
        | Ok [] => Raise (IndexError "list index out of range")
        | Ok (r :: _) =>
            match files s !! svg_path cfgs (r - 1) with
            | Some _ => Ok tt
            | None => Raise (FileNotFoundError (svg_path cfgs (r - 1)))
            end
        end.
Proof.
  intros Hempty. unfold Main.select_best_svg, best_index_of.
  unfold py_assert, in_supported. simpl bool_decide. simpl orb. cbv iota.
  unfold copy.
  unfold mbind, M_bind, log, lift, read_file, write_file, raise, mret, M_ret,
    sorted_glob_png.
  cbn [files trace set_trace set_files]. rewrite Hempty.
  destruct (inference_rank w (prompt cfgs) []) as [[|x rest]|e];
    cbn [files trace set_trace set_files fst snd].
  - intros [= <- <-]. cbn [trace set_trace].
    rewrite !scored_app. simpl. by rewrite !app_nil_r.
  - unfold svg_path. destruct (files s !! _);
      intros [= <- <-]; cbn [trace set_trace set_files];
      rewrite !scored_app; simpl; by rewrite !app_nil_r.
  - intros [= <- <-]. cbn [trace set_trace].
    rewrite !scored_app. simpl. by rewrite !app_nil_r.
Qed.

(** With ten candidates (and fewer) the names sort in index order. *)
Example index_order_at_nine :
  let cfg := Main.parse_arguments plain (cli "f" 9 "ImageReward") in
  let run := Main.main plain cfg (init_state ∅) in
  scored (trace run.2) = [png_path cfg <$> [0; 1; 2; 3; 4; 5; 6; 7; 8; 9]].
Proof. vm_compute. done. Qed.

(** ** The statements at concrete runs *)

Lemma main_produces_candidates_witness :
  let cfg := Main.parse_arguments plain (cli "f" 2 "ImageReward") in
  let s' := (Main.main plain cfg (init_state ∅)).2 in
  as_int (refine_iter cfg) = Some 2 ∧ 0 ≤ 2
  ∧ Main.main plain cfg (init_state ∅) = (Ok tt, s')
  ∧ produced cfg 2 (trace (init_state ∅)) (trace s').
Proof.
  intros cfg s'.
  assert (as_int (refine_iter cfg) = Some 2) as Hn by reflexivity.
  assert (0 ≤ 2) as Hpos by lia.
  assert (Main.main plain cfg (init_state ∅) = (Ok tt, s')) as Hrun
    by (vm_compute; reflexivity).
  split; [exact Hn|]. split; [exact Hpos|]. split; [exact Hrun|].
  exact (main_produces_candidates plain cfg 2 (init_state ∅) s' Hn Hpos Hrun).
Defined.


Lemma rank_scorer_first_minus_one_witness :
  let cfg := Main.parse_arguments second_first (cli "f" 2 "ImageReward") in
  let s := (generation second_first cfg (init_state ∅)).2 in
  length (sorted (glob_png (png_dir cfg) (files s))) = 3%nat
  ∧ inference_rank second_first (prompt cfg)
      (sorted (glob_png (png_dir cfg) (files s))) = Ok (2 :: [1; 3])
  ∧ (Handler.select_best_svg second_first (svg_dir cfg) (png_dir cfg) (prompt cfg)
       (target cfg) "ImageReward" s).1 = Ok (svg_path cfg (2 - 1), 2 - 1)
  ∧ copies (trace (Main.select_best_svg second_first cfg "ImageReward" s).2)
    = copies (trace s) ++ [(svg_path cfg (2 - 1), template_path cfg)]
  ∧ (ApiWrapper._select_best_svg second_first cfg s).1 = Ok (2 - 1).
Proof.
  intros cfg s.
  assert (inference_rank second_first (prompt cfg)
            (sorted (glob_png (png_dir cfg) (files s))) = Ok (2 :: [1; 3])) as Hr
    by reflexivity.
  destruct (rank_scorer_first_minus_one second_first cfg s 2 [1; 3] Hr)
    as (Hh & Hm & Ha).
  split; [vm_compute; reflexivity|]. split; [exact Hr|].
  split; [apply Hh; vm_compute; discriminate|]. split; [exact Hm|].
  apply Ha; [reflexivity|]. vm_compute. eexists. reflexivity.
Defined.


(** Candidates 1 and 2 tie for the largest similarity: candidate 1 wins. *)
Example tie_goes_to_lowest_index :
  let cfg := Main.parse_arguments tie_1_2 (cli "f" 2 "CLIP") in
  let s := (generation tie_1_2 cfg (init_state ∅)).2 in
  cosines tie_1_2 (prompt cfg) (sorted (glob_png (png_dir cfg) (files s)))
  = [(1 # 2)%Q; (9 # 10)%Q; (9 # 10)%Q]
  ∧ (Handler.select_best_svg tie_1_2 (svg_dir cfg) (png_dir cfg) (prompt cfg)
       (target cfg) "CLIP" s).1 = Ok (svg_path cfg 1, 1).
Proof. vm_compute. done. Qed.

Lemma handler_rejects_unknown_scorer_witness :
  let event := scorer_request "Aesthetic" in
  default ∅ (event !! "input") !! "prompt" = Some (PyStr "A cat sitting")
  ∧ in_supported (Handler.get (default ∅ (event !! "input")) "reward_model"
                    (PyStr "ImageReward")) = false
  ∧ Handler.handler plain event (init_state ∅)
    = (Handler.Failure
         ("Invalid reward_model: "
          +:+ py_str (Handler.get (default ∅ (event !! "input")) "reward_model"
                        (PyStr "ImageReward"))
          +:+ ". Must be 'ImageReward' or 'CLIP'"), init_state ∅).
Proof.
  intros event.
  assert (default ∅ (event !! "input") !! "prompt" = Some (PyStr "A cat sitting"))
    as Hp by (vm_compute; reflexivity).
  assert (in_supported (Handler.get (default ∅ (event !! "input")) "reward_model"
                          (PyStr "ImageReward")) = false)
    as Hbad by (vm_compute; reflexivity).
  split; [exact Hp|]. split; [exact Hbad|].
  exact (handler_rejects_unknown_scorer plain event (init_state ∅) _ Hp Hbad).
Defined.

Lemma handler_reuses_previous_model_witness :
  let s0 := init_state {[ "/d/png/cat_0.png" := "png" ]} in
  let call := Handler.select_best_svg plain "/d/svg" "/d/png"
                (PyStr "A cat sitting") "cat" "ImageReward" in
  let s1 := (call s0).2 in
  let s3 := (call s1).2 in
  call s0 = ((call s0).1, s1)
  ∧ call s1 = ((call s1).1, s3)
  ∧ is_Some (self_reward_model (generator s1))
  ∧ self_reward_model (generator s3) = self_reward_model (generator s1)
  ∧ loads (trace s3) = loads (trace s1).
Proof.
  intros s0 call s1 s3.
  assert (call s0 = ((call s0).1, s1)) as H1 by (vm_compute; reflexivity).
  assert (call s1 = ((call s1).1, s3)) as H2 by (vm_compute; reflexivity).
  split; [exact H1|]. split; [exact H2|].
  exact (handler_reuses_previous_model plain "ImageReward"
           "/d/svg" "/d/png" (PyStr "A cat sitting") "cat"
           "/d/svg" "/d/png" (PyStr "A cat sitting") "cat"
           s0 (call s0).1 s1 s1 (call s1).1 s3 H1 eq_refl eq_refl H2).
Defined.

Lemma canonical_path_of_root_and_target_witness :
  let cfg1 := Main.parse_arguments plain (cli "f" 2 "ImageReward") in
  let cfg2 := Main.parse_arguments plain (cli "f" 0 "CLIP") in
  let s1 := (generation plain cfg1 (init_state ∅)).2 in
  let s2 := (generation plain cfg2 (init_state ∅)).2 in
  let s1' := (ApiWrapper._select_best_svg plain cfg1 s1).2 in
  let s2' := (ApiWrapper._select_best_svg plain cfg2 s2).2 in
  root_dir cfg1 = root_dir cfg2 ∧ target cfg1 = target cfg2
  ∧ ApiWrapper._select_best_svg plain cfg1 s1 = (Ok 0, s1')
  ∧ ApiWrapper._select_best_svg plain cfg2 s2 = (Ok 0, s2')
  ∧ ∃ dst, dst = root_dir cfg1 +:+ "/" +:+ target cfg1 +:+ "_template.svg"
      ∧ copies (trace s1') = copies (trace s1) ++ [(svg_path cfg1 0, dst)]
      ∧ copies (trace s2') = copies (trace s2) ++ [(svg_path cfg2 0, dst)]
      ∧ is_Some (files s1' !! dst)
      ∧ files s1' !! dst = files s1 !! svg_path cfg1 0
      ∧ files s2' !! dst = files s2 !! svg_path cfg2 0.
Proof.
  intros cfg1 cfg2 s1 s2 s1' s2'.
  assert (root_dir cfg1 = root_dir cfg2) as Hroot by reflexivity.
  assert (target cfg1 = target cfg2) as Htarget by reflexivity.
  assert (ApiWrapper._select_best_svg plain cfg1 s1 = (Ok 0, s1')) as H1
    by (vm_compute; reflexivity).
  assert (ApiWrapper._select_best_svg plain cfg2 s2 = (Ok 0, s2')) as H2
    by (vm_compute; reflexivity).
  split; [exact Hroot|]. split; [exact Htarget|].
  split; [exact H1|]. split; [exact H2|].
  exact (canonical_path_of_root_and_target plain plain cfg1 cfg2 s1 s2 0 0 s1' s2'
           Hroot Htarget H1 H2).
Defined.

Lemma validate_input_refine_iter_witness :
  let job_input : gmap string pyval := {[ "prompt" := PyStr "A cat sitting" ]} in
  RunPodConfig.validate_input (delete "refine_iter" job_input) = Ok (true, "")
  ∧ (RunPodConfig.validate_input (<["refine_iter" := PyInt 10]> job_input)
     = Ok (true, "")
     ↔ ∃ n, as_int (PyInt 10) = Some n ∧ 0 ≤ n ≤ 10)
  ∧ ((∃ n, as_int (PyInt 10) = Some n ∧ 10 < n) →
     RunPodConfig.validate_input (<["refine_iter" := PyInt 10]> job_input)
     = Ok (false, RunPodConfig.msg_refine_iter_too_high (PyInt 10)))
  ∧ ((as_int (PyInt 10) = None ∨ ∃ n, as_int (PyInt 10) = Some n ∧ n < 0) →
     RunPodConfig.validate_input (<["refine_iter" := PyInt 10]> job_input)
     = Ok (false, RunPodConfig.msg_invalid_refine_iter (PyInt 10)))
  ∧ RunPodConfig.msg_refine_iter_too_high (PyInt 10)
    ≠ RunPodConfig.msg_invalid_refine_iter (PyInt 10).
Proof.
  intros job_input.
  assert (RunPodConfig.validate_input (delete "refine_iter" job_input)
          = Ok (true, "")) as H by (vm_compute; reflexivity).
  split; [exact H|].
  exact (validate_input_refine_iter job_input (PyInt 10) H).
Defined.

(** The boundary values of [refine_iter], on a request with a prompt. *)
Example validate_input_boundaries :
  let check v :=
    RunPodConfig.validate_input
      (<["refine_iter" := v]> {[ "prompt" := PyStr "A cat sitting" ]}) in
  check (PyInt 0) = Ok (true, "")
  ∧ check (PyInt 10) = Ok (true, "")
  ∧ check (PyBool true) = Ok (true, "")
  ∧ check (PyInt 11)
    = Ok (false, "refine_iter too high: 11. Maximum is 10 to prevent timeouts")
  ∧ check (PyInt (-1))
    = Ok (false, "Invalid refine_iter: -1. Must be a non-negative integer")
  ∧ check (PyFloat "2.0")
    = Ok (false, "Invalid refine_iter: 2.0. Must be a non-negative integer")
  ∧ check PyNone
    = Ok (false, "Invalid refine_iter: None. Must be a non-negative integer").
Proof. vm_compute. done. Qed.

Lemma get_as_handler j k d : RunPodConfig.get j k d = Handler.get j k d.
Proof. done. Qed.

(** * Further properties *)

(** ** runpod_config.py *)

(** X1. [validate_input] accepts a job input exactly when its prompt is a
    text that is not blank, its reward model (default [ImageReward]) is one
    of the two supported names, its viewbox (default 512) is an integer
    above 0 and its [refine_iter] (default 2) is an integer from 0 to 10. *)
Theorem validate_input_accepts_iff (job_input : gmap string pyval) :
  RunPodConfig.validate_input job_input = Ok (true, "") ↔
  (∃ p, job_input !! "prompt" = Some (PyStr p) ∧ strip p ≠ "")
  ∧ in_supported (RunPodConfig.get job_input "reward_model" (PyStr "ImageReward"))
    = true
  ∧ (∃ vb, as_int (RunPodConfig.get job_input "viewbox" (PyInt 512)) = Some vb
           ∧ 0 < vb)
  ∧ (∃ n, as_int (RunPodConfig.get job_input "refine_iter" (PyInt 2)) = Some n
          ∧ 0 ≤ n ≤ 10).
Proof.
  unfold RunPodConfig.validate_input, RunPodConfig.DEFAULT_REWARD_MODEL,
    RunPodConfig.DEFAULT_VIEWBOX, RunPodConfig.DEFAULT_REFINE_ITER.
  split.
  - destruct (job_input !! "prompt") as [[| | | |p|]|]; try discriminate.
    case_bool_decide as Hp; [discriminate|].
    destruct (in_supported _) eqn:Hr; simpl; [|discriminate].
    destruct (as_int (RunPodConfig.get job_input "viewbox" _)) as [vb|] eqn:Hv;
      [|discriminate].
    destruct (vb <=? 0) eqn:Hvb; [discriminate|].
    destruct (as_int (RunPodConfig.get job_input "refine_iter" _)) as [n|] eqn:Hn;
      [|discriminate].
    destruct (n <? 0) eqn:Hn0; [discriminate|].
    destruct (10 <? n) eqn:Hn10; [discriminate|].
    intros _. repeat split; eauto.
    + exists vb. split; [done|lia].
    + exists n. split; [done|lia].
  - intros [(p & -> & Hp) (-> & (vb & -> & Hvb) & (n & -> & Hn))].
    rewrite bool_decide_eq_false_2 by done. simpl.
    destruct (Z.leb_spec vb 0); [lia|].
    destruct (Z.ltb_spec n 0); [lia|].
    destruct (Z.ltb_spec 10 n); [lia|]. done.
Qed.

(** [s.strip()] is empty exactly when [s] is white space only. *)
Lemma all_space_rev_app s : ∀ acc,
  all_space (String.rev_app s acc) = all_space s && all_space acc.
Proof.
  induction s as [|c s IH]; intros acc; simpl; [done|].
  rewrite IH. simpl. destruct (py_isspace c), (all_space s), (all_space acc); done.
Qed.

Lemma all_space_rev s : all_space (String.rev s) = all_space s.
Proof. unfold String.rev. rewrite all_space_rev_app. simpl. by rewrite andb_true_r. Qed.

Lemma lstrip_all_space s : all_space s = true → lstrip s = "".
Proof.
  induction s as [|c s IH]; simpl; [done|].
  intros [Hc Hs]%andb_true_iff. rewrite Hc. by apply IH.
Qed.

Lemma all_space_lstrip s : all_space (lstrip s) = true → all_space s = true.
Proof.
  induction s as [|c s IH]; simpl; [done|].
  destruct (py_isspace c) eqn:Hc; simpl; [done|]. by rewrite Hc.
Qed.

Lemma strip_empty_iff s : strip s = "" ↔ all_space s = true.
Proof.
  unfold strip. split.
  - intros H. apply all_space_lstrip. rewrite <- all_space_rev.
    apply all_space_lstrip. rewrite <- all_space_rev. by rewrite H.
  - intros H. by rewrite (lstrip_all_space s H).
Qed.

(** X2. A prompt that is a text is rejected as empty exactly when it holds
    nothing but white space (the empty text included), whatever the other
    parameters are. *)
Theorem validate_input_blank_prompt (job_input : gmap string pyval) (p : string) :
  job_input !! "prompt" = Some (PyStr p) →
  (RunPodConfig.validate_input job_input
   = Ok (false, "Parameter 'prompt' cannot be empty")
   ↔ all_space p = true).
Proof.
  intros Hp. rewrite <- strip_empty_iff.
  unfold RunPodConfig.validate_input. rewrite Hp.
  case_bool_decide as Hs; [done|].
  split; [|done]. intros H. exfalso.
  destruct (negb _); [discriminate|].
  destruct (as_int (RunPodConfig.get job_input "viewbox" _)); [|discriminate].
  destruct (_ <=? 0); [discriminate|].
  destruct (as_int (RunPodConfig.get job_input "refine_iter" _)); [|discriminate].
  destruct (_ <? 0); [discriminate|].
  destruct (10 <? _); discriminate.
Qed.

(** X3. [validate_input] returns unless the prompt is present and is not a
    text, in which case [.strip()] raises [AttributeError]; when it
    returns, the verdict is [True] exactly when the message is empty. *)
Theorem validate_input_verdict (job_input : gmap string pyval) :
  match RunPodConfig.validate_input job_input with
  | Ok (is_valid, error_message) =>
      (is_valid = true ↔ error_message = "")
      ∧ (job_input !! "prompt" = None
         ∨ ∃ p, job_input !! "prompt" = Some (PyStr p))
  | Raise e =>
      (∃ msg, e = AttributeError msg)
      ∧ ∃ v, job_input !! "prompt" = Some v ∧ ∀ p, v ≠ PyStr p
  end.
Proof.
  unfold RunPodConfig.validate_input.
  destruct (job_input !! "prompt") as [[| | | |p|]|] eqn:Hp;
    try (split; [by eexists|]; eexists; split; [done|]; intros; discriminate);
    [|by split; [|left]].
  assert (∀ b m, (b = true ↔ m = "") →
            (b = true ↔ m = "")
            ∧ (Some (PyStr p) = None ∨ ∃ p0, Some (PyStr p) = Some (PyStr p0)))
    as Hk by (intros; split; [done|right; eauto]).
  case_bool_decide; [by apply Hk|].
  destruct (negb _); [by apply Hk|].
  destruct (as_int (RunPodConfig.get job_input "viewbox" _)); [|by apply Hk].
  destruct (_ <=? 0); [by apply Hk|].
  destruct (as_int (RunPodConfig.get job_input "refine_iter" _)); [|by apply Hk].
  destruct (_ <? 0); [by apply Hk|].
  destruct (10 <? _); by apply Hk.
Qed.

(** [merge_with_defaults] *)
Lemma merge_lookup (job_input : gmap string pyval) k :
  RunPodConfig.merge_with_defaults job_input !! k
  = match job_input !! k with
    | Some v => Some v
    | None => RunPodConfig.get_default_params !! k
    end.
Proof.
  unfold RunPodConfig.merge_with_defaults. rewrite lookup_union.
  destruct (job_input !! k), (RunPodConfig.get_default_params !! k); done.
Qed.

Lemma get_merge (job_input : gmap string pyval) k d :
  RunPodConfig.get_default_params !! k = Some d →
  RunPodConfig.get (RunPodConfig.merge_with_defaults job_input) k d
  = RunPodConfig.get job_input k d.
Proof.
  intros Hd. unfold RunPodConfig.get. rewrite merge_lookup, Hd.
  by destruct (job_input !! k).
Qed.

(** X5. Filling in the defaults does not change the verdict: the defaults
    of [get_default_params] are those that [validate_input] assumes for a
    missing parameter, and none of them is a prompt. *)
Theorem validate_input_merge_with_defaults (job_input : gmap string pyval) :
  RunPodConfig.validate_input (RunPodConfig.merge_with_defaults job_input)
  = RunPodConfig.validate_input job_input.
Proof.
  unfold RunPodConfig.validate_input.
  rewrite !get_merge by (vm_compute; reflexivity).
  rewrite merge_lookup.
  replace (RunPodConfig.get_default_params !! "prompt") with (@None pyval)
    by (vm_compute; reflexivity).
  by destruct (job_input !! "prompt").
Qed.

(** X6. The defaults that [handler] assumes for the missing parameters are
    those of [get_default_params]: a request answers the same with and
    without them filled in. *)
Theorem handler_merge_with_defaults w (event : gmap string (gmap string pyval))
    (job_input : gmap string pyval) s :
  Handler.handler w (<["input" := RunPodConfig.merge_with_defaults job_input]> event) s
  = Handler.handler w (<["input" := job_input]> event) s.
Proof.
  unfold Handler.handler. rewrite !lookup_insert_eq. simpl.
  rewrite merge_lookup.
  replace (RunPodConfig.get_default_params !! "prompt") with (@None pyval)
    by (vm_compute; reflexivity).
  rewrite <- !get_as_handler.
  rewrite !get_merge by (vm_compute; reflexivity).
  by destruct (job_input !! "prompt").
Qed.

(** X4. [merge_with_defaults] keeps every parameter of the job input with
    its value, holds the six default parameters, holds nothing else, and
    merging again changes nothing. *)
Theorem merge_with_defaults_complete (job_input : gmap string pyval) :
  (∀ k v, job_input !! k = Some v →
     RunPodConfig.merge_with_defaults job_input !! k = Some v)
  ∧ (∀ k, k ∈ ["model"; "reward_model"; "viewbox"; "refine_iter";
               "prompts_file"; "target"] →
       is_Some (RunPodConfig.merge_with_defaults job_input !! k))
  ∧ (∀ k, is_Some (RunPodConfig.merge_with_defaults job_input !! k) →
       is_Some (job_input !! k)
       ∨ k ∈ ["model"; "reward_model"; "viewbox"; "refine_iter";
              "prompts_file"; "target"])
  ∧ RunPodConfig.merge_with_defaults (RunPodConfig.merge_with_defaults job_input)
    = RunPodConfig.merge_with_defaults job_input.
Proof.
  repeat split.
  - intros k v H. by rewrite merge_lookup, H.
  - intros k Hk. rewrite merge_lookup. destruct (job_input !! k); [done|].
    set_unfold. destruct Hk as [->|[->|[->|[->|[->|[->|[]]]]]]]; vm_compute; eauto.
  - intros k. rewrite merge_lookup. destruct (job_input !! k); [by left; eauto|].
    intros [v Hv]. right. unfold RunPodConfig.get_default_params in Hv.
    apply elem_of_list_to_map_2 in Hv. set_unfold. 
    destruct Hv as [[= <- _]|[[= <- _]|[[= <- _]|[[= <- _]|[[= <- _]|[[= <- _]|[]]]]]]]; eauto 10.
  - apply map_eq. intros k. rewrite !merge_lookup.
    by destruct (job_input !! k), (RunPodConfig.get_default_params !! k).
Qed.

(** X7. [check_environment]: all the required variables count as set
    exactly when none is reported missing; the missing ones are the
    required variables that are unset or set to the empty text; when all
    are set, the API key and the backend are non-empty.  A backend set to
    the empty text is reported missing and echoed as the backend; an
    optional variable set to the empty text counts as set. *)
Theorem check_environment_required (env : gmap string string) :
  let status := check_environment env in
  (all_required_set status = true ↔ missing_required status = [])
  ∧ (∀ var, var ∈ missing_required status ↔
       var ∈ ["ANTHROPIC_API_KEY"; "BACKEND"]
       ∧ (env !! var = None ∨ env !! var = Some ""))
  ∧ (all_required_set status = true →
       (∃ key, env !! "ANTHROPIC_API_KEY" = Some key ∧ key ≠ "")
       ∧ ∃ b, backend status = Some b ∧ b ≠ "")
  ∧ (env !! "BACKEND" = Some "" →
       backend status = Some "" ∧ "BACKEND" ∈ missing_required status)
  ∧ (env !! "OPENAI_API_KEY" = Some "" →
       optional_set status = [("OPENAI_API_KEY", true)]).
Proof.
  assert (∀ var, unset_or_empty env var = true
                 ↔ env !! var = None ∨ env !! var = Some "") as Hu.
  { intros var. unfold unset_or_empty. destruct (env !! var) as [v|].
    - rewrite bool_decide_eq_true. split; [intros ->; by right|].
      by intros [[=]|[= ->]].
    - split; [by left|done]. }
  assert (∀ var, unset_or_empty env var = false
                 → ∃ v, env !! var = Some v ∧ v ≠ "") as Hs.
  { intros var. unfold unset_or_empty. destruct (env !! var) as [v|]; [|done].
    intros Hv%bool_decide_eq_false. eauto. }
  unfold check_environment. cbn [fold_left].
  pose proof (Hu "ANTHROPIC_API_KEY") as Ha. pose proof (Hs "ANTHROPIC_API_KEY") as Ha'.
  pose proof (Hu "BACKEND") as Hb. pose proof (Hs "BACKEND") as Hb'.
  destruct (unset_or_empty env "ANTHROPIC_API_KEY");
    destruct (unset_or_empty env "BACKEND"); cbn [all_required_set
      missing_required optional_set backend app fmap list_fmap].
  all: split; [done|].
  all: split;
    [intros var; rewrite ?elem_of_cons, ?elem_of_nil;
     split;
     [intros Hv; split; [tauto|];
      repeat destruct Hv as [->|Hv]; try done; tauto
     |intros [Hv Hm]; repeat destruct Hv as [->|Hv]; try done; try tauto;
      exfalso;
      first [destruct (Ha' eq_refl) as (? & ? & ?); destruct Hm; congruence
            |destruct (Hb' eq_refl) as (? & ? & ?); destruct Hm; congruence]]|].
  all: split;
    [intros Hall; first [discriminate Hall|split; [by apply Ha'|by apply Hb']]|].
  all: split;
    [intros Hb''; split; [done|]; rewrite ?elem_of_cons;
     first [tauto|destruct (Hb' eq_refl) as (? & ? & ?); congruence]|].
  all: intros ->; by rewrite bool_decide_eq_true_2 by eauto.
Qed.

(** ** The events of the statements *)

Lemma quiet_weaken {A : Type} (P Q : event → Prop) (m : M A) :
  (∀ e, P e → Q e) → quiet P m → quiet Q m.
Proof.
  intros HPQ Hm s r s' H. destruct (Hm s r s' H) as (ext & -> & Hext).
  exists ext. split; [done|]. by eapply Forall_impl.
Qed.

Lemma quiet_send (P : event → Prop) w c :
  (∀ seen r, P (Send c seen r)) → quiet P (send w c).
Proof.
  intros HP s r s' (_ & _ & ->)%send_inv. eexists. split; [done|].
  by repeat constructor.
Qed.

Lemma quiet_save_svg (P : event → Prop) w cfg raw name :
  P (SaveSvg name raw) → quiet P (save_svg w cfg raw name).
Proof.
  intros HP s r s' (-> & _)%save_svg_inv. eexists. split; [done|].
  by repeat constructor.
Qed.

Lemma quiet_refine_loop (P : event → Prop) w cfg idxs :
  (∀ c seen r, P (Send c seen r)) → (∀ p c, P (Save p c)) →
  (∀ n r, P (SaveSvg n r)) →
  ∀ png, quiet P (refine_loop w cfg idxs png).
Proof.
  intros H1 H2 H3. induction idxs as [|i idxs IH]; intros png; cbn [refine_loop].
  - apply quiet_ret.
  - apply quiet_bind; [by apply quiet_send|]. intros raw.
    apply quiet_bind; [by apply quiet_log|]. intros _.
    apply quiet_bind; [by apply quiet_save_svg|]. intros _. apply IH.
Qed.


(** ** handler.py: the session *)




(** ** A call to the language model that fails *)

Lemma no_failed_send_stops {A : Type} lo (r : result A) s :
  no_failed_send lo s → stops_at_failure lo r s.
Proof. intros H p c seen e Hp Hl. by specialize (H p _ Hp Hl). Qed.

Lemma clean_or_stopped_stops {A : Type} lo (r : result A) s :
  clean_or_stopped lo r s → stops_at_failure lo r s.
Proof. destruct r; [apply no_failed_send_stops|done]. Qed.

Lemma clean_bind {A B : Type} lo (m : M A) (f : A → M B) :
  hoare (no_failed_send lo) m (clean_or_stopped lo) →
  (∀ a, hoare (no_failed_send lo) (f a) (clean_or_stopped lo)) →
  hoare (no_failed_send lo) (m ≫= f) (clean_or_stopped lo).
Proof.
  intros Hm Hf. eapply hoare_bind; [|exact Hf].
  intros s r s' Hs Hr. specialize (Hm s r s' Hs Hr). destruct r as [a|e]; [done|].
  intros p c seen e' Hp Hl. destruct (Hm p c seen e' Hp Hl) as [[= ->] ?]. done.
Qed.

Lemma clean_send lo w c :
  hoare (no_failed_send lo) (send w c) (clean_or_stopped lo).
Proof.
  intros s r s' Hs (_ & _ & Htr)%send_inv. destruct r as [a|e]; simpl.
  - intros p e Hp. rewrite Htr. intros Hl.
    apply lookup_app_Some in Hl as [Hl|[_ Hl]]; [by eapply Hs|].
    apply list_lookup_singleton_Some in Hl as [_ <-]. done.
  - intros p c' seen e' Hp. rewrite Htr. intros Hl.
    apply lookup_app_Some in Hl as [Hl|[Hge Hl]].
    + by specialize (Hs p _ Hp Hl).
    + apply list_lookup_singleton_Some in Hl as [Hz [= <- <- <-]].
      split; [done|]. rewrite length_app. simpl. lia.
Qed.

Lemma clean_quiet {A : Type} lo (m : M A) :
  quiet (λ e, failed_send e = false) m →
  hoare (no_failed_send lo) m (clean_or_stopped lo).
Proof.
  intros Hq s r s' Hs Hm. destruct (Hq s r s' Hm) as (ext & Htr & Hext).
  assert (no_failed_send lo s') as Hs'.
  { intros p e Hp. rewrite Htr. intros Hl.
    apply lookup_app_Some in Hl as [Hl|[_ Hl]]; [by eapply Hs|].
    rewrite Forall_forall in Hext. apply Hext. by eapply list_elem_of_lookup_2. }
  destruct r; [done|]. by apply no_failed_send_stops.
Qed.

Lemma inert_not_failed e : inert e → failed_send e = false.
Proof. by destruct e. Qed.

Lemma clean_inert {A : Type} lo (m : M A) :
  quiet inert m → hoare (no_failed_send lo) m (clean_or_stopped lo).
Proof. intros H. apply clean_quiet. eapply quiet_weaken; [apply inert_not_failed|done]. Qed.

Lemma clean_refine_loop lo w cfg idxs : ∀ png,
  hoare (no_failed_send lo) (refine_loop w cfg idxs png) (clean_or_stopped lo).
Proof.
  induction idxs as [|i idxs IH]; intros png; cbn [refine_loop].
  - by apply hoare_ret.
  - apply clean_bind; [apply clean_send|]. intros raw.
    apply clean_bind; [by apply clean_quiet, quiet_log|]. intros _.
    apply clean_bind; [by apply clean_quiet, quiet_save_svg|]. intros _.
    apply IH.
Qed.

Lemma clean_generation lo w cfg :
  hoare (no_failed_send lo) (generation w cfg) (clean_or_stopped lo).
Proof.
  unfold generation.
  apply clean_bind; [apply clean_send|]. intros e.
  apply clean_bind; [by apply clean_quiet, quiet_log|]. intros _.
  apply clean_bind; [apply clean_send|]. intros raw.
  apply clean_bind; [by apply clean_quiet, quiet_log|]. intros _.
  apply clean_bind; [by apply clean_quiet, quiet_save_svg|]. intros _.
  apply clean_bind; [apply clean_quiet, quiet_lift|]. intros idxs.
  apply clean_bind; [apply clean_refine_loop|]. intros _.
  by apply hoare_ret.
Qed.

Lemma no_failed_send_start s : no_failed_send (length (trace s)) s.
Proof. intros p e Hp Hl. apply lookup_lt_Some in Hl. lia. Qed.

(** X11. [main] does not retry, and does nothing after, a call to the
    language model that fails: the failed call is the last event of the
    run, and its exception is the outcome of the run. *)
Theorem main_stops_at_failed_call w cfgs s r s' :
  Main.main w cfgs s = (r, s') →
  ∀ p c seen e,
    (length (trace s) ≤ p)%nat →
    trace s' !! p = Some (Send c seen (Raise e)) →
    r = Raise e ∧ S p = length (trace s').
Proof.
  intros Hrun. apply (clean_or_stopped_stops (length (trace s)) r s').
  revert Hrun. apply (clean_bind (length (trace s))); [..|apply no_failed_send_start].
  - by apply clean_quiet, quiet_log.
  - intros _. apply clean_bind; [apply clean_generation|].
    intros _. apply clean_inert, quiet_main_select.
Qed.

(** [with tempfile.TemporaryDirectory()] *)
Lemma with_temp_dir_inv {A : Type} w (body : string → M A) s r s' :
  Handler.with_temp_dir w body s = (r, s') →
  ∃ s0 s1,
    let temp_dir := mkdtemp w (trace s) in
    trace s0 = trace s ∧ generator s0 = generator s
    ∧ files s0 = filter (λ kv, Handler.under temp_dir kv.1 = false) (files s)
    ∧ body temp_dir s0 = (r, s1)
    ∧ trace s' = trace s1 ∧ generator s' = generator s1
    ∧ files s' = filter (λ kv, Handler.under temp_dir kv.1 = false) (files s1).
Proof.
  unfold Handler.with_temp_dir, Handler.remove_tree.
  unfold mbind, M_bind at 1.
  destruct (body _ _) as [r1 s1] eqn:Hb. intros [= <- <-].
  exists (set_files (filter (λ kv, Handler.under (mkdtemp w (trace s)) kv.1 = false)
                       (files s)) s), s1.
  cbn. by rewrite Hb.
Qed.

Lemma clean_generate_svg lo w prompt target viewbox refine_iter model
    reward_model prompts_file :
  hoare (no_failed_send lo)
    (Handler.generate_svg w prompt target viewbox refine_iter model reward_model
       prompts_file)
    (clean_or_stopped lo).
Proof.
  intros s r s' Hs Hrun. unfold Handler.generate_svg in Hrun.
  apply with_temp_dir_inv in Hrun
    as (s0 & s1 & Ht0 & _ & _ & Hbody & Ht1 & _ & _).
  assert (clean_or_stopped lo r s1) as Hc.
  { revert Hbody. apply (clean_bind lo).
    - apply clean_inert, quiet_initialize_session.
    - intros _. apply clean_bind; [apply clean_generation|]. intros e.
      apply clean_bind; [apply clean_inert, quiet_handler_select|].
      intros [best_svg_path best_index].
      apply clean_bind; [apply clean_inert, quiet_read_file|]. intros svg.
      apply clean_bind; [apply clean_inert, quiet_read_file|]. intros png.
      apply clean_bind; [apply clean_inert, quiet_lift|]. intros idxs.
      apply clean_bind; [apply clean_inert, quiet_collect_svgs|]. intros all.
      by apply hoare_ret.
    - intros p e Hp. rewrite Ht0. by apply Hs. }
  destruct r; simpl in *.
  - intros p e. rewrite Ht1. apply Hc.
  - intros p c seen e'. rewrite Ht1. apply Hc.
Qed.

(** X12. In [handler] too a failed call to the language model is the last
    event of the request; the request is answered with the text of its
    exception as the error. *)
Theorem handler_reports_failed_call w event s p c seen e :
  (length (trace s) ≤ p)%nat →
  trace (Handler.handler w event s).2 !! p = Some (Send c seen (Raise e)) →
  (Handler.handler w event s).1 = Handler.Failure (exn_str e)
  ∧ S p = length (trace (Handler.handler w event s).2).
Proof.
  intros Hp. unfold Handler.handler.
  destruct (default ∅ (event !! "input") !! "prompt") as [prompt|]; cbn.
  2:{ intros Hl. apply lookup_lt_Some in Hl. lia. }
  destruct (negb _); cbn.
  { intros Hl. apply lookup_lt_Some in Hl. lia. }
  destruct (Handler.generate_svg _ _ _ _ _ _ _ _ _) as [r s'] eqn:Hrun.
  pose proof (clean_generate_svg (length (trace s)) _ _ _ _ _ _ _ _ s r s'
                (no_failed_send_start s) Hrun) as Hc.
  apply clean_or_stopped_stops in Hc.
  destruct r as [resp|e']; cbn; intros Hl;
    destruct (Hc p c seen e Hp Hl) as [[= ->] ?]; done.
Qed.

Lemma quiet_elim {A : Type} (P : event → Prop) (m : M A) s r s' :
  m s = (r, s') → quiet P m → ∃ ext, trace s' = trace s ++ ext ∧ Forall P ext.
Proof. intros H Hq. by eapply Hq. Qed.

Lemma initialize_session_ok model prompts_file s :
  ∃ s1, Handler.initialize_session model prompts_file s = (Ok tt, s1).
Proof.
  destruct s as [fs tr [[m|] ? ? ?]];
    unfold Handler.initialize_session, mbind, M_bind, get_generator,
      put_generator, log; cbn; try destruct (negb _); eauto.
Qed.

Ltac quiet_steps :=
  repeat first
    [ apply quiet_ret | apply quiet_lift | apply quiet_read_file
    | by apply quiet_log | by apply quiet_send | by apply quiet_save_svg
    | by apply quiet_refine_loop
    | by (eapply quiet_weaken; [|apply quiet_handler_select])
    | by (eapply quiet_weaken; [|apply quiet_collect_svgs])
    | by (eapply quiet_weaken; [|apply quiet_initialize_session])
    | apply quiet_bind; [|intros ?]
    | match goal with |- quiet _ (let '(_, _) := ?x in _) => destruct x end ].

Lemma generation_first_call w cfg s r s' :
  generation w cfg s = (r, s') →
  ∃ seen r0 ext,
    trace s' = trace s
      ++ Send (SendCall "expand_text_prompt" (Some (prompt cfg)) None
                 (prompt_path cfg)) seen r0 :: ext.
Proof.
  unfold generation. intros H.
  apply bind_inv in H as [(a & s1 & Hsend & Hrest)|(e & Hsend & ->)];
    apply send_inv in Hsend as (_ & _ & Htr).
  - eapply (quiet_elim any_event) in Hrest as (ext & -> & _); [|quiet_steps].
    rewrite Htr. eexists _, _, ext. by rewrite <- app_assoc.
  - rewrite Htr. by eexists _, _, [].
Qed.

Lemma generate_svg_first_call w prompt target viewbox refine_iter model
    reward_model prompts_file s r s' :
  Handler.generate_svg w prompt target viewbox refine_iter model reward_model
    prompts_file s = (r, s') →
  ∃ pre path seen r0 ext,
    Forall inert pre
    ∧ trace s' = trace s ++ pre
        ++ Send (SendCall "expand_text_prompt" (Some prompt) None path) seen r0
        :: ext.
Proof.
  unfold Handler.generate_svg. intros Hrun.
  apply with_temp_dir_inv in Hrun
    as (s0 & s1 & Ht0 & _ & _ & Hbody & Ht1 & _ & _).
  destruct (initialize_session_ok model prompts_file s0) as [s2 Hinit].
  rewrite (bind_ok _ _ _ _ _ Hinit) in Hbody.
  destruct (quiet_initialize_session _ _ _ _ _ Hinit) as (pre & Hpre & Hin).
  apply bind_inv in Hbody as [(e & s3 & Hgen & Hrest)|(e & Hgen & ->)];
    apply generation_first_call in Hgen as (seen & r0 & ext & Hgen).
  - eapply (quiet_elim any_event) in Hrest as (ext2 & Hext2 & _); [|quiet_steps].
    eexists pre, _, seen, r0, (ext ++ ext2). split; [done|].
    rewrite Ht1, Hext2, Hgen, Hpre, Ht0. cbn. by rewrite <- !app_assoc.
  - eexists pre, _, seen, r0, ext. split; [done|].
    rewrite Ht1, Hgen, Hpre, Ht0. cbn. by rewrite <- !app_assoc.
Qed.

(** X9. [handler] answers a request without a prompt, or with a reward
    model other than the two supported, with an error and without doing
    anything; every other request reaches the language model: after at
    most the creation of a session, the prompt is sent for expansion as it
    was given (it is neither stripped nor checked for emptiness). *)
Theorem handler_calls_model_iff_checks_pass w event s :
  let job_input := default ∅ (event !! "input") in
  let answer := Handler.handler w event s in
  (job_input !! "prompt" = None
   ∨ in_supported (Handler.get job_input "reward_model" (PyStr "ImageReward"))
     = false →
   answer.2 = s ∧ ∃ error, answer.1 = Handler.Failure error)
  ∧ (∀ prompt, job_input !! "prompt" = Some prompt →
       in_supported (Handler.get job_input "reward_model" (PyStr "ImageReward"))
       = true →
       ∃ pre path seen r ext,
         Forall inert pre
         ∧ trace answer.2 = trace s ++ pre
             ++ Send (SendCall "expand_text_prompt" (Some prompt) None path)
                  seen r :: ext).
Proof.
  cbn zeta. unfold Handler.handler. split.
  - destruct (default ∅ (event !! "input") !! "prompt") as [prompt|]; cbn.
    + intros [?| ->]; [done|]. cbn. eauto.
    + eauto.
  - intros prompt -> ->. cbn.
    destruct (Handler.generate_svg _ _ _ _ _ _ _ _ _) as [r s'] eqn:Hrun.
    apply generate_svg_first_call in Hrun.
    destruct r; cbn; exact Hrun.
Qed.

(** ** The files that the statements touch *)

Lemma keeps_bind {A B : Type} (m : M A) (f : A → M B) :
  keeps_files m → (∀ a, keeps_files (f a)) → keeps_files (m ≫= f).
Proof.
  intros Hm Hf s r s' H.
  apply bind_inv in H as [(a & s1 & H1 & H2)|(e & H1 & ->)].
  - rewrite (Hf _ _ _ _ H2). by eapply Hm.
  - by eapply Hm.
Qed.

Lemma keeps_ret {A : Type} (a : A) : keeps_files (mret a).
Proof. by intros s r s' [= <- <-]. Qed.
Lemma keeps_raise {A : Type} e : keeps_files (@raise A e).
Proof. by intros s r s' [= <- <-]. Qed.
Lemma keeps_lift {A : Type} (x : result A) : keeps_files (lift x).
Proof. by intros s r s' [= <- <-]. Qed.
Lemma keeps_log e : keeps_files (log e).
Proof. by intros s r s' [= <- <-]. Qed.
Lemma keeps_read_file path : keeps_files (read_file path).
Proof. intros s r s'. unfold read_file. destruct (_ !! _); by intros [= <- <-]. Qed.
Lemma keeps_path_exists path : keeps_files (path_exists path).
Proof. by intros s r s' [= <- <-]. Qed.
Lemma keeps_sorted_glob_png dir : keeps_files (sorted_glob_png dir).
Proof. by intros s r s' [= <- <-]. Qed.
Lemma keeps_get_generator : keeps_files get_generator.
Proof. by intros s r s' [= <- <-]. Qed.
Lemma keeps_put_generator g : keeps_files (put_generator g).
Proof. by intros s r s' [= <- <-]. Qed.
Lemma keeps_get_trace : keeps_files get_trace.
Proof. by intros s r s' [= <- <-]. Qed.
Lemma keeps_py_assert cond msg : keeps_files (py_assert cond msg).
Proof. unfold py_assert. destruct cond; [apply keeps_ret|apply keeps_raise]. Qed.
Lemma keeps_send w c : keeps_files (send w c).
Proof. by intros s r s' (? & _)%send_inv. Qed.
Lemma keeps_best_index_of w model_name prompt png_files :
  keeps_files (best_index_of w model_name prompt png_files).
Proof. by intros s r s' [? _]%best_index_of_copies. Qed.

Ltac keeps_steps :=
  repeat first
    [ apply keeps_ret | apply keeps_raise | apply keeps_lift | apply keeps_log
    | apply keeps_read_file | apply keeps_path_exists
    | apply keeps_sorted_glob_png | apply keeps_get_generator
    | apply keeps_put_generator | apply keeps_get_trace | apply keeps_py_assert
    | apply keeps_send | apply keeps_best_index_of
    | apply keeps_bind; [|intros ?]
    | match goal with
      | |- keeps_files (if ?b then _ else _) => destruct b
      | |- keeps_files (match ?x with _ => _ end) => destruct x
      end ].





Lemma writes_only_keeps {A : Type} (ok : string → Prop) (m : M A) :
  keeps_files m → writes_only ok m.
Proof. intros H s r s' Hm. rewrite (H _ _ _ Hm). done. Qed.

Lemma writes_only_bind {A B : Type} (ok : string → Prop) (m : M A) (f : A → M B) :
  writes_only ok m → (∀ a, writes_only ok (f a)) → writes_only ok (m ≫= f).
Proof.
  intros Hm Hf s r s' H.
  apply bind_inv in H as [(a & s1 & H1 & H2)|(e & H1 & ->)].
  - destruct (Hm _ _ _ H1) as [Ha Hb]. destruct (Hf _ _ _ _ H2) as [Hc Hd].
    split.
    + intros p Hp. rewrite Hc by done. by apply Ha.
    + intros p Hp. by apply Hd, Hb.
  - by eapply Hm.
Qed.

Lemma writes_only_write_file (ok : string → Prop) path content :
  ok path → writes_only ok (write_file path content).
Proof.
  intros Hok s r s' [= <- <-]. cbn. split.
  - intros p Hp. apply lookup_insert_ne. by intros ->.
  - intros p Hp. rewrite lookup_insert_is_Some. destruct (decide (path = p)); eauto.
Qed.


Lemma writes_only_copy src dst : writes_only (λ p, p = dst) (copy src dst).
Proof.
  unfold copy.
  apply writes_only_bind; [apply writes_only_keeps, keeps_log|]. intros _.
  apply writes_only_bind; [apply writes_only_keeps, keeps_read_file|]. intros c.
  by apply writes_only_write_file.
Qed.


(** A failed [copy] has written nothing. *)
Lemma copy_raise_keeps src dst s e s' :
  copy src dst s = (Raise e, s') → files s' = files s.
Proof.
  unfold copy. intros H.
  apply bind_inv in H as [(a & s1 & H1 & H)|(e' & H1 & _)];
    apply log_inv in H1 as (? & Hf1 & _); [|done].
  apply bind_inv in H as [(c & s2 & H2 & H)|(e' & H2 & _)].
  - discriminate H.
  - by rewrite (keeps_read_file _ _ _ _ H2).
Qed.

Lemma unchanged_bind {A B : Type} (m : M A) (f : A → M B) :
  keeps_files m → (∀ a, unchanged_on_failure (f a)) →
  unchanged_on_failure (m ≫= f).
Proof.
  intros Hm Hf s e s' H.
  apply bind_inv in H as [(a & s1 & H1 & H2)|(e' & H1 & _)].
  - rewrite (Hf _ _ _ _ H2). by eapply Hm.
  - by eapply Hm.
Qed.

Lemma unchanged_keeps {A : Type} (m : M A) :
  keeps_files m → unchanged_on_failure m.
Proof. intros H s e s'. apply H. Qed.

Lemma unchanged_copy src dst : unchanged_on_failure (copy src dst).
Proof. intros s e s'. apply copy_raise_keeps. Qed.

Lemma keeps_load_for model_name :
  keeps_files
    (if bool_decide (model_name = "ImageReward")
     then log (LoadModel "ImageReward-v1.0")
     else log (LoadModel "ViT-B/32")).
Proof. keeps_steps. Qed.

Lemma writes_only_main_select w cfgs model_name :
  writes_only (λ p, p = template_path cfgs)
    (Main.select_best_svg w cfgs model_name).
Proof.
  unfold Main.select_best_svg.
  apply writes_only_bind; [apply writes_only_keeps, keeps_py_assert|]. intros _.
  apply writes_only_bind; [apply writes_only_keeps, keeps_load_for|]. intros _.
  apply writes_only_bind; [apply writes_only_keeps, keeps_sorted_glob_png|].
  intros png_files.
  apply writes_only_bind; [apply writes_only_keeps, keeps_best_index_of|].
  intros b. apply writes_only_copy.
Qed.

Lemma writes_only_api_select w cfg :
  writes_only (λ p, p = template_path cfg) (ApiWrapper._select_best_svg w cfg).
Proof.
  unfold ApiWrapper._select_best_svg.
  apply writes_only_bind; [apply writes_only_keeps, keeps_py_assert|]. intros _.
  apply writes_only_bind; [apply writes_only_keeps, keeps_load_for|]. intros _.
  apply writes_only_bind; [apply writes_only_keeps, keeps_sorted_glob_png|].
  intros png_files.
  apply writes_only_bind; [apply writes_only_keeps, keeps_best_index_of|].
  intros b.
  apply writes_only_bind; [apply writes_only_copy|]. intros _.
  apply writes_only_keeps, keeps_ret.
Qed.

Lemma unchanged_main_select w cfgs model_name :
  unchanged_on_failure (Main.select_best_svg w cfgs model_name).
Proof.
  unfold Main.select_best_svg.
  apply unchanged_bind; [apply keeps_py_assert|]. intros _.
  apply unchanged_bind; [apply keeps_load_for|]. intros _.
  apply unchanged_bind; [apply keeps_sorted_glob_png|]. intros png_files.
  apply unchanged_bind; [apply keeps_best_index_of|]. intros b.
  apply unchanged_copy.
Qed.

(** X13. [select_best_svg] of [main.py] writes no file but
    [{root_dir}/{target}_template.svg]: every other file is what it was;
    when it returns, the template holds what lay at
    [{svg_dir}/{target}_{best_index}.svg] for some index; when it raises,
    no file has changed. *)
Theorem selection_writes_only_the_template w cfgs model_name s r s' :
  Main.select_best_svg w cfgs model_name s = (r, s') →
  (∀ p, p ≠ template_path cfgs → files s' !! p = files s !! p)
  ∧ match r with
    | Ok _ =>
        ∃ best_index : Z,
          is_Some (files s !! svg_path cfgs best_index)
          ∧ files s' !! template_path cfgs = files s !! svg_path cfgs best_index
    | Raise _ => files s' = files s
    end.
Proof.
  intros H. split; [by apply (writes_only_main_select _ _ _ _ _ _ H)|].
  destruct r as [[]|e]; [|by apply (unchanged_main_select _ _ _ _ _ _ H)].
  assert (Main.select_best_svg w cfgs model_name s = (Ok tt, s')
          → ∃ b content, files s !! svg_path cfgs b = Some content
              ∧ files s' = <[template_path cfgs := content]> (files s)) as Hsel.
  { clear H. unfold Main.select_best_svg. intros H.
    apply bind_ok_inv in H as (? & s1 & H1%keeps_py_assert & H).
    apply bind_ok_inv in H as (? & s2 & H2%keeps_load_for & H).
    apply bind_ok_inv in H as (fs & s3 & H3%keeps_sorted_glob_png & H).
    apply bind_ok_inv in H as (b & s4 & H4%keeps_best_index_of & H).
    exists b. unfold copy in H.
    apply bind_ok_inv in H as (? & s5 & H5%keeps_log & H).
    apply bind_ok_inv in H as (content & s6 & H6 & H).
    exists content. unfold read_file in H6.
    destruct (files s5 !! _) as [c|] eqn:Hc; [|discriminate].
    injection H6 as -> ->. injection H as <-. cbn.
    rewrite H5, H4, H3, H2, H1 in *. done. }
  destruct (Hsel H) as (b & content & Hb & ->). exists b.
  rewrite Hb, lookup_insert_eq. eauto.
Qed.

(** ** api_wrapper.py *)

Lemma generation_returns_expansion w cfg s e s' :
  generation w cfg s = (Ok e, s') →
  ∃ seen ext,
    trace s' = trace s
      ++ Send (SendCall "expand_text_prompt" (Some (prompt cfg)) None
                 (prompt_path cfg)) seen (Ok e) :: ext
    ∧ ∃ idxs, range_from_1 (refine_iter cfg) = Ok idxs.
Proof.
  intros H. pose proof H as Hfirst. unfold generation in H.
  apply bind_ok_inv in H as (a & s1 & Hsend & H).
  apply send_inv in Hsend as (_ & _ & Htr).
  pose proof H as Hrest.
  apply bind_ok_inv in H as (? & s2 & _ & H).
  apply bind_ok_inv in H as (? & s3 & _ & H).
  apply bind_ok_inv in H as (? & s4 & _ & H).
  apply bind_ok_inv in H as (? & s5 & _ & H).
  apply bind_ok_inv in H as (idxs & s6 & Hidx & H).
  apply bind_ok_inv in H as (? & s7 & _ & H).
  injection H as -> ->.
  eapply (quiet_elim any_event) in Hrest as (ext & -> & _); [|quiet_steps].
  eexists _, ext. rewrite Htr, <- app_assoc. split; [done|].
  exists idxs. unfold lift in Hidx. by injection Hidx as ->.
Qed.

(** X14. The dictionary that [_execute_generation] returns agrees with
    what the run did: [best_svg_path] is the template path of the
    configuration and holds the content of the vector file of candidate
    [best_index]; [expanded_prompt] is the answer to the expansion call
    of this run; [total_iterations] is [refine_iter + 1]. *)
Theorem execute_generation_result_consistent w cfg s res s' :
  ApiWrapper._execute_generation w cfg s = (Ok res, s') →
  ApiWrapper.res_best_svg_path res = template_path cfg
  ∧ (∃ content,
       files s' !! ApiWrapper.res_best_svg_path res = Some content
       ∧ files s' !! svg_path cfg (ApiWrapper.res_best_index res) = Some content)
  ∧ (∃ seen p,
       (length (trace s) ≤ p)%nat
       ∧ trace s' !! p
         = Some (Send (SendCall "expand_text_prompt" (Some (prompt cfg)) None
                         (prompt_path cfg)) seen
                   (Ok (ApiWrapper.res_expanded_prompt res))))
  ∧ ∃ n, as_int (refine_iter cfg) = Some n
         ∧ ApiWrapper.res_total_iterations res = n + 1.
Proof.
  unfold ApiWrapper._execute_generation. intros H.
  apply bind_ok_inv in H as (? & s1 & Hlog & H).
  apply log_inv in Hlog as (_ & _ & _ & Ht1).
  apply bind_ok_inv in H as (e & s2 & Hgen & H).
  apply generation_returns_expansion in Hgen as (seen & ext & Ht2 & _).
  apply bind_ok_inv in H as (b & s3 & Hsel & H).
  pose proof (quiet_api_select _ _ _ _ _ Hsel) as (ext3 & Ht3 & _).
  apply api_select_copies in Hsel as (_ & content & Hsrc & Hf3).
  apply bind_ok_inv in H as (n & s4 & Hn & H).
  injection H as <- <-. cbn.
  unfold lift in Hn. destruct (as_int (refine_iter cfg)) as [n'|] eqn:Hint;
    [|discriminate]. injection Hn as -> ->.
  split; [done|]. split; [|split].
  - exists content. rewrite Hf3, lookup_insert_eq. split; [done|].
    destruct (decide (template_path cfg = svg_path cfg b)) as [->|Hne].
    + by rewrite lookup_insert_eq.
    + by rewrite lookup_insert_ne.
  - exists seen, (length (trace s1)). split; [rewrite Ht1, length_app; lia|].
    rewrite Ht3, Ht2, <- app_assoc.
    rewrite lookup_app_r by lia. by rewrite Nat.sub_diag.
  - eauto.
Qed.

(** X16. With [refine_iter] at 0 or below, a run of [main] that completes
    has made the initial candidate and nothing else: [range(1,
    refine_iter + 1)] is empty, and a negative count is not refused. *)
Theorem refine_iter_below_one_gives_single_candidate w cfgs n s s' :
  as_int (refine_iter cfgs) = Some n → n ≤ 0 →
  Main.main w cfgs s = (Ok tt, s') →
  ∃ raw,
    candidates (trace s')
    = candidates (trace s) ++ [(candidate_name (target cfgs) 0, raw)]
    ∧ generated (trace s')
      = generated (trace s) ++ [("write_svg_code", msg_path cfgs 0, raw)].
Proof.
  intros Hint Hn Hrun.
  apply main_inv in Hrun as (s1 & e & s2 & ext1 & ext2 & Ht1 & Hi1 & Hgen & Ht2 & Hi2).
  apply (generation_candidates _ _ n) in Hgen as (raws & Hlen & Hc & Hg); [|done].
  replace (Z.to_nat n) with 0%nat in Hlen by lia.
  destruct raws as [|raw [|]]; try discriminate. clear Hlen.
  unfold expected_calls in Hg.
  replace (seqZ 1 n) with (@nil Z) in Hc, Hg by (unfold seqZ; by replace (Z.to_nat n) with 0%nat by lia).
  exists raw. rewrite Ht2, candidates_app, generated_app, Hc, Hg, Ht1.
  rewrite candidates_app, generated_app.
  rewrite !(inert_candidates ext1), !(inert_candidates ext2),
    !(inert_generated ext1), !(inert_generated ext2) by done.
  by rewrite !app_nil_r.
Qed.

(** X10. A request whose [refine_iter] is not an integer (a text, a float,
    [null], a container) is never answered with a success. *)
Theorem handler_non_integer_refine_iter_fails w event s :
  as_int (Handler.get (default ∅ (event !! "input")) "refine_iter" (PyInt 2))
  = None →
  ∃ error, (Handler.handler w event s).1 = Handler.Failure error.
Proof.
  intros Hint. unfold Handler.handler.
  destruct (default ∅ (event !! "input") !! "prompt") as [prompt|]; [|eauto].
  destruct (negb _); [eauto|].
  destruct (Handler.generate_svg _ _ _ _ _ _ _ _ _) as [[resp|e] s'] eqn:Hrun;
    [|eauto]. exfalso.
  apply generate_svg_inv in Hrun as (s1 & e & s2 & _ & _ & _ & _ & Hgen & _).
  apply generation_returns_expansion in Hgen as (_ & _ & _ & idxs & Hidx).
  unfold range_from_1 in Hidx. cbn in Hidx. by rewrite Hint in Hidx.
Qed.

(** ** Paths *)

Lemma string_app_cons x (a b : string) : String x a +:+ b = String x (a +:+ b).
Proof. reflexivity. Qed.

Lemma string_app_assoc (a b c : string) : (a +:+ b) +:+ c = a +:+ (b +:+ c).
Proof.
  induction a as [|x a IH]; [done|]. rewrite !string_app_cons. by f_equal.
Qed.












(** ** Where the files of a request come from *)




























(** ** The order of the image sequence *)

Lemma ascii_compare_refl (x : ascii) : (x ?= x)%char = Eq.
Proof.
  pose proof (Ascii.compare_antisym x x) as H.
  destruct (x ?= x)%char; done.
Qed.

Lemma compare_app_same (p a b : string) :
  String.compare (p +:+ a) (p +:+ b) = String.compare a b.
Proof.
  induction p as [|x p IH]; [done|]. rewrite !string_app_cons.
  cbn [String.compare]. by rewrite ascii_compare_refl.
Qed.

Lemma le_app_same (p a b : string) :
  String.le (p +:+ a) (p +:+ b) ↔ String.le a b.
Proof. unfold String.le, String.leb. by rewrite compare_app_same. Qed.

Lemma png_path_digits cfg i :
  png_path cfg i
  = (png_dir cfg +:+ "/" +:+ target cfg +:+ "_") +:+ (pretty i +:+ ".png").
Proof.
  unfold png_path, candidate_name. by rewrite !string_app_assoc.
Qed.

Lemma png_path_le cfg i j :
  String.le (png_path cfg i) (png_path cfg j)
  ↔ String.le (pretty i +:+ ".png") (pretty j +:+ ".png").
Proof. rewrite !png_path_digits. apply le_app_same. Qed.

Lemma renders_sorted_up_to_nine cfg n :
  0 ≤ n ≤ 9 → Sorted String.le (png_path cfg <$> seqZ 0 (n + 1)).
Proof.
  intros Hn.
  assert (n = 0 ∨ n = 1 ∨ n = 2 ∨ n = 3 ∨ n = 4 ∨ n = 5 ∨ n = 6 ∨ n = 7
          ∨ n = 8 ∨ n = 9) as Hcases by lia.
  repeat destruct Hcases as [->|Hcases]; [..|subst n];
    cbn [seqZ fmap list_fmap Z.to_nat Z.add Pos.to_nat Pos.iter_op Init.Nat.add
         seq Z.of_nat Pos.of_succ_nat Pos.succ Pos.add];
    repeat (first [apply Sorted_nil | apply Sorted_cons | apply HdRel_nil
                  | apply HdRel_cons; apply png_path_le; vm_compute; exact I]).
Qed.

(** X20. [sorted] puts the renders of the candidates [0 .. n] in the
    order of their indices exactly when [n] is at most 9: from [n = 10] on
    the render of candidate 10 precedes that of candidate 2. *)
Theorem sorted_renders_in_index_order_iff cfg n l :
  0 ≤ n →
  l ≡ₚ png_path cfg <$> seqZ 0 (n + 1) →
  (sorted l = png_path cfg <$> seqZ 0 (n + 1) ↔ n ≤ 9).
Proof.
  intros Hn Hl. unfold sorted. split.
  - intros Heq. destruct (Z.le_gt_cases n 9) as [|Hbig]; [done|]. exfalso.
    pose proof (StronglySorted_merge_sort String.le l) as Hs.
    rewrite Heq in Hs.
    replace (n + 1) with (3 + (n - 2)) in Hs by lia.
    rewrite seqZ_app, fmap_app in Hs by lia.
    assert (String.le (png_path cfg 2) (png_path cfg 10)) as Hle.
    { eapply StronglySorted_app_1_elem_of; [exact Hs|..];
        apply list_elem_of_fmap; eexists; (split; [done|]);
        apply elem_of_seqZ; lia. }
    apply png_path_le in Hle. vm_compute in Hle. done.
  - intros Hle. apply (Sorted_unique String.le).
    + apply Sorted_merge_sort. apply _.
    + apply renders_sorted_up_to_nine. lia.
    + by rewrite merge_sort_Permutation.
Qed.

(** ** api_wrapper.py and main.py *)

Lemma select_agree w cfg s :
  same_outcome (Main.select_best_svg w cfg (reward_model cfg) s)
    (ApiWrapper._select_best_svg w cfg s).
Proof.
  unfold Main.select_best_svg, ApiWrapper._select_best_svg, same_outcome.
  unfold mbind, M_bind.
  destruct (py_assert _ _ s) as [[[]|e1] s1]; [|done].
  destruct ((if bool_decide (reward_model cfg = "ImageReward")
             then log (LoadModel "ImageReward-v1.0")
             else log (LoadModel "ViT-B/32")) s1) as [[[]|e2] s2]; [|done].
  destruct (sorted_glob_png (png_dir cfg) s2) as [[fs|e3] s3]; [|done].
  destruct (best_index_of w (reward_model cfg) (prompt cfg) fs s3)
    as [[b|e4] s4]; [|done].
  destruct (copy _ _ s4) as [[[]|e5] s5]; done.
Qed.

(** X15. [generate_template], called with the values of the command line
    of [main.py] and the prompt that [get_prompt] gives for the target,
    runs as [main] does on the parsed arguments: the same state is
    reached (the same calls and the same files), both return or both raise
    the same exception, and the result names the template path and
    [refine_iter + 1] iterations. *)
Theorem generate_template_runs_as_main w (a : Main.Args) s :
  let run := Main.main w (Main.parse_arguments w a) s in
  let call :=
    ApiWrapper.generate_template w (Main.arg_target a) (get_prompt w (Main.arg_target a))
      (Some (Main.arg_output_folder a)) (Main.arg_viewbox a)
      (Main.arg_refine_iter a) (Main.arg_model a) (Main.arg_reward_model a)
      (Main.arg_output_path a) "prompts" s in
  call.2 = run.2
  ∧ match run.1, call.1 with
    | Ok _, Ok res =>
        ApiWrapper.res_best_svg_path res
        = Main.arg_output_path a +:+ "/" +:+ Main.arg_output_folder a +:+ "/"
          +:+ Main.arg_target a +:+ "_template.svg"
        ∧ ApiWrapper.res_total_iterations res = Main.arg_refine_iter a + 1
    | Raise e, Raise e' => e = e'
    | _, _ => False
    end.
Proof.
  cbn zeta. unfold ApiWrapper.generate_template, ApiWrapper.generate.
  change (ApiWrapper.make_cfg _ _ _ _ _ _ _ _ _) with (Main.parse_arguments w a).
  generalize (eq_refl : refine_iter (Main.parse_arguments w a)
                        = PyInt (Main.arg_refine_iter a)).
  generalize (eq_refl : template_path (Main.parse_arguments w a)
                        = (Main.arg_output_path a +:+ "/" +:+ Main.arg_output_folder a)
                          +:+ "/" +:+ Main.arg_target a +:+ "_template.svg").
  generalize (Main.parse_arguments w a). intros cfg Htpl Hri.
  unfold Main.main, ApiWrapper._execute_generation.
  unfold mbind, M_bind.
  destruct (log _ s) as [[[]|e1] s1]; [|done].
  destruct (generation w cfg s1) as [[e|e2] s2]; [|done].
  pose proof (select_agree w cfg s2) as [Hst Hres].
  destruct (Main.select_best_svg w cfg (reward_model cfg) s2) as [[[]|e3] s3],
    (ApiWrapper._select_best_svg w cfg s2) as [[b|e4] s4];
    cbn in Hst, Hres; subst; try done.
  rewrite Hri. cbn. split; [done|]. split; [|done].
  rewrite Htpl. by rewrite !string_app_assoc.
Qed.

(** ** The further statements at concrete inputs *)

Lemma validate_input_blank_prompt_witness :
  let job_input : gmap string pyval :=
    {[ "prompt" := PyStr "  "; "reward_model" := PyStr "Aesthetic" ]} in
  job_input !! "prompt" = Some (PyStr "  ")
  ∧ (RunPodConfig.validate_input job_input
     = Ok (false, "Parameter 'prompt' cannot be empty")
     ↔ all_space "  " = true).
Proof.
  intros job_input.
  assert (job_input !! "prompt" = Some (PyStr "  ")) as Hp
    by (vm_compute; reflexivity).
  split; [exact Hp|].
  exact (validate_input_blank_prompt job_input "  " Hp).
Defined.

Lemma handler_non_integer_refine_iter_fails_witness :
  let event :=
    request [("prompt", PyStr "A cat sitting"); ("refine_iter", PyFloat "2.0")] in
  as_int (Handler.get (default ∅ (event !! "input")) "refine_iter" (PyInt 2))
  = None
  ∧ ∃ error,
      (Handler.handler plain event (init_state ∅)).1 = Handler.Failure error.
Proof.
  intros event.
  assert (as_int (Handler.get (default ∅ (event !! "input")) "refine_iter"
                    (PyInt 2)) = None) as Hint
    by (vm_compute; reflexivity).
  split; [exact Hint|].
  exact (handler_non_integer_refine_iter_fails plain event (init_state ∅) Hint).
Defined.

Lemma main_stops_at_failed_call_witness :
  let cfg := Main.parse_arguments refine_fails (cli "f" 2 "ImageReward") in
  let s' := (Main.main refine_fails cfg (init_state ∅)).2 in
  let r : result unit := Raise (CollaboratorError "overloaded") in
  let c := SendCall "svg_refine" None (Some [png_path cfg 0]) (msg_path cfg 1) in
  let seen := [Some "png:<svg>out/f/stage_1/raw_logs/cat_raw0</svg>"] in
  Main.main refine_fails cfg (init_state ∅) = (r, s')
  ∧ (length (trace (init_state ∅)) ≤ 6)%nat
  ∧ trace s' !! 6%nat = Some (Send c seen (Raise (CollaboratorError "overloaded")))
  ∧ r = Raise (CollaboratorError "overloaded")
  ∧ 7%nat = length (trace s').
Proof.
  intros cfg s' r c seen.
  assert (Main.main refine_fails cfg (init_state ∅) = (r, s')) as Hrun
    by (vm_compute; reflexivity).
  assert (length (trace (init_state ∅)) ≤ 6)%nat as Hlo
    by (vm_compute; lia).
  assert (trace s' !! 6%nat
          = Some (Send c seen (Raise (CollaboratorError "overloaded")))) as Hp
    by (vm_compute; reflexivity).
  split; [exact Hrun|]. split; [exact Hlo|]. split; [exact Hp|].
  exact (main_stops_at_failed_call refine_fails cfg (init_state ∅) r s' Hrun
           6%nat c seen (CollaboratorError "overloaded") Hlo Hp).
Defined.

Lemma handler_reports_failed_call_witness :
  let event :=
    request [("prompt", PyStr "A cat sitting"); ("target", PyStr "cat");
             ("refine_iter", PyInt 1)] in
  let c := SendCall "svg_refine" None (Some ["/tmp/tmp0/png_logs/cat_0.png"])
             "/tmp/tmp0/raw_logs/cat_raw1" in
  let seen := [Some "png:<svg>/tmp/tmp0/raw_logs/cat_raw0</svg>"] in
  (length (trace (init_state ∅)) ≤ 6)%nat
  ∧ trace (Handler.handler refine_fails event (init_state ∅)).2 !! 6%nat
    = Some (Send c seen (Raise (CollaboratorError "overloaded")))
  ∧ (Handler.handler refine_fails event (init_state ∅)).1
    = Handler.Failure (exn_str (CollaboratorError "overloaded"))
  ∧ 7%nat = length (trace (Handler.handler refine_fails event (init_state ∅)).2).
Proof.
  intros event c seen.
  assert (length (trace (init_state ∅)) ≤ 6)%nat as Hlo
    by (vm_compute; lia).
  assert (trace (Handler.handler refine_fails event (init_state ∅)).2 !! 6%nat
          = Some (Send c seen (Raise (CollaboratorError "overloaded")))) as Hp
    by (vm_compute; reflexivity).
  split; [exact Hlo|]. split; [exact Hp|].
  exact (handler_reports_failed_call refine_fails event (init_state ∅) 6%nat c
           seen (CollaboratorError "overloaded") Hlo Hp).
Defined.

Lemma selection_writes_only_the_template_witness :
  let cfg := Main.parse_arguments plain (cli "f" 2 "ImageReward") in
  let s := (generation plain cfg (init_state ∅)).2 in
  let s' := (Main.select_best_svg plain cfg "ImageReward" s).2 in
  Main.select_best_svg plain cfg "ImageReward" s = (Ok tt, s')
  ∧ (∀ p, p ≠ template_path cfg → files s' !! p = files s !! p)
  ∧ ∃ best_index : Z,
      is_Some (files s !! svg_path cfg best_index)
      ∧ files s' !! template_path cfg = files s !! svg_path cfg best_index.
Proof.
  intros cfg s s'.
  assert (Main.select_best_svg plain cfg "ImageReward" s = (Ok tt, s')) as Hsel
    by (vm_compute; reflexivity).
  split; [exact Hsel|].
  exact (selection_writes_only_the_template plain cfg "ImageReward" s (Ok tt) s'
           Hsel).
Defined.

Lemma execute_generation_result_consistent_witness :
  let cfg := ApiWrapper.make_cfg "../output" "cat" "A cat sitting" None 512 1
               "claude-3-5-sonnet-20240620" "ImageReward" "prompts" in
  let s' := (ApiWrapper._execute_generation plain cfg (init_state ∅)).2 in
  let res :=
    {| ApiWrapper.res_target := "cat";
       ApiWrapper.res_best_index := 0;
       ApiWrapper.res_best_svg_path := "../output/cat/cat_template.svg";
       ApiWrapper.res_svg_dir := "../output/cat/stage_1/svg_logs";
       ApiWrapper.res_png_dir := "../output/cat/stage_1/png_logs";
       ApiWrapper.res_expanded_prompt :=
         "<svg>../output/cat/stage_1/raw_logs/cat_prompt</svg>";
       ApiWrapper.res_total_iterations := 2 |} in
  ApiWrapper._execute_generation plain cfg (init_state ∅) = (Ok res, s')
  ∧ ApiWrapper.res_best_svg_path res = template_path cfg
  ∧ (∃ content,
       files s' !! ApiWrapper.res_best_svg_path res = Some content
       ∧ files s' !! svg_path cfg (ApiWrapper.res_best_index res) = Some content)
  ∧ (∃ seen p,
       (length (trace (init_state ∅)) ≤ p)%nat
       ∧ trace s' !! p
         = Some (Send (SendCall "expand_text_prompt" (Some (prompt cfg)) None
                         (prompt_path cfg)) seen
                   (Ok (ApiWrapper.res_expanded_prompt res))))
  ∧ ∃ n, as_int (refine_iter cfg) = Some n
         ∧ ApiWrapper.res_total_iterations res = n + 1.
Proof.
  intros cfg s' res.
  assert (ApiWrapper._execute_generation plain cfg (init_state ∅) = (Ok res, s'))
    as Hrun by (vm_compute; reflexivity).
  split; [exact Hrun|].
  exact (execute_generation_result_consistent plain cfg (init_state ∅) res s'
           Hrun).
Defined.

Lemma refine_iter_below_one_gives_single_candidate_witness :
  let cfg := Main.parse_arguments plain (cli "f" (-1) "ImageReward") in
  let s' := (Main.main plain cfg (init_state ∅)).2 in
  as_int (refine_iter cfg) = Some (-1) ∧ -1 ≤ 0
  ∧ Main.main plain cfg (init_state ∅) = (Ok tt, s')
  ∧ ∃ raw,
      candidates (trace s')
      = candidates (trace (init_state ∅)) ++ [(candidate_name (target cfg) 0, raw)]
      ∧ generated (trace s')
        = generated (trace (init_state ∅))
          ++ [("write_svg_code", msg_path cfg 0, raw)].
Proof.
  intros cfg s'.
  assert (as_int (refine_iter cfg) = Some (-1)) as Hint by reflexivity.
  assert (-1 ≤ 0) as Hn by lia.
  assert (Main.main plain cfg (init_state ∅) = (Ok tt, s')) as Hrun
    by (vm_compute; reflexivity).
  split; [exact Hint|]. split; [exact Hn|]. split; [exact Hrun|].
  exact (refine_iter_below_one_gives_single_candidate plain cfg (-1)
           (init_state ∅) s' Hint Hn Hrun).
Defined.



Lemma sorted_renders_in_index_order_iff_witness :
  let cfg := Main.parse_arguments plain (cli "f" 2 "ImageReward") in
  let l := [png_path cfg 2; png_path cfg 0; png_path cfg 1] in
  0 ≤ 2
  ∧ l ≡ₚ png_path cfg <$> seqZ 0 (2 + 1)
  ∧ (sorted l = png_path cfg <$> seqZ 0 (2 + 1) ↔ 2 ≤ 9).
Proof.
  intros cfg l.
  assert (0 ≤ 2) as Hn by lia.
  assert (l ≡ₚ png_path cfg <$> seqZ 0 (2 + 1)) as Hl
    by (change (l ≡ₚ [png_path cfg 0; png_path cfg 1] ++ [png_path cfg 2]);
        apply Permutation_cons_append).
  split; [exact Hn|]. split; [exact Hl|].
  exact (sorted_renders_in_index_order_iff cfg 2 l Hn Hl).
Defined.

Lemma api_produces_candidates_witness :
  let cfg := ApiWrapper.make_cfg "../output" "cat" "A cat sitting" None 512 1
               "claude-3-5-sonnet-20240620" "ImageReward" "prompts" in
  let run := ApiWrapper._execute_generation plain cfg (init_state ∅) in
  let res :=
    {| ApiWrapper.res_target := "cat";
       ApiWrapper.res_best_index := 0;
       ApiWrapper.res_best_svg_path := "../output/cat/cat_template.svg";
       ApiWrapper.res_svg_dir := "../output/cat/stage_1/svg_logs";
       ApiWrapper.res_png_dir := "../output/cat/stage_1/png_logs";
       ApiWrapper.res_expanded_prompt :=
         "<svg>../output/cat/stage_1/raw_logs/cat_prompt</svg>";
       ApiWrapper.res_total_iterations := 2 |} in
  as_int (refine_iter cfg) = Some 1 ∧ 0 ≤ 1
  ∧ ApiWrapper._execute_generation plain cfg (init_state ∅) = (Ok res, run.2)
  ∧ produced cfg 1 (trace (init_state ∅)) (trace run.2)
  ∧ ApiWrapper.res_total_iterations res = 1 + 1.
Proof.
  intros cfg run res.
  assert (as_int (refine_iter cfg) = Some 1) as Hint by reflexivity.
  assert (0 ≤ 1) as Hn by lia.
  assert (ApiWrapper._execute_generation plain cfg (init_state ∅)
          = (Ok res, run.2)) as Hrun by (vm_compute; reflexivity).
  split; [exact Hint|]. split; [exact Hn|]. split; [exact Hrun|].
  exact (api_produces_candidates plain cfg 1 (init_state ∅) res run.2 Hint Hn
           Hrun).
Defined.

Lemma handler_produces_candidates_witness :
  let run :=
    Handler.generate_svg plain (PyStr "A cat sitting") (PyStr "cat") (PyInt 512)
      (PyInt 2) (PyStr "claude-3-5-sonnet-20240620") "ImageReward"
      (PyStr "prompts") (init_state ∅) in
  let resp :=
    Handler.Success "<svg>/tmp/tmp0/raw_logs/cat_raw0</svg>" 0
      "png:<svg>/tmp/tmp0/raw_logs/cat_raw0</svg>"
      [(0, "<svg>/tmp/tmp0/raw_logs/cat_raw0</svg>");
       (1, "<svg>/tmp/tmp0/raw_logs/cat_raw1</svg>");
       (2, "<svg>/tmp/tmp0/raw_logs/cat_raw2</svg>")]
      {| Handler.md_prompt := PyStr "A cat sitting";
         Handler.md_expanded_prompt := "<svg>/tmp/tmp0/raw_logs/cat_prompt</svg>";
         Handler.md_target := PyStr "cat";
         Handler.md_model := PyStr "claude-3-5-sonnet-20240620";
         Handler.md_reward_model := "ImageReward";
         Handler.md_refine_iterations := PyInt 2;
         Handler.md_total_generated := 3 |} in
  as_int (PyInt 2) = Some 2 ∧ 0 ≤ 2
  ∧ Handler.generate_svg plain (PyStr "A cat sitting") (PyStr "cat") (PyInt 512)
      (PyInt 2) (PyStr "claude-3-5-sonnet-20240620") "ImageReward"
      (PyStr "prompts") (init_state ∅) = (Ok resp, run.2)
  ∧ produced
      (Handler.make_cfg (mkdtemp plain (trace (init_state ∅)))
         (PyStr "A cat sitting") (PyStr "cat") (PyInt 512) (PyInt 2)
         (PyStr "claude-3-5-sonnet-20240620") "ImageReward" (PyStr "prompts"))
      2 (trace (init_state ∅)) (trace run.2).
Proof.
  intros run resp.
  assert (as_int (PyInt 2) = Some 2) as Hint by reflexivity.
  assert (0 ≤ 2) as Hn by lia.
  assert (Handler.generate_svg plain (PyStr "A cat sitting") (PyStr "cat")
            (PyInt 512) (PyInt 2) (PyStr "claude-3-5-sonnet-20240620")
            "ImageReward" (PyStr "prompts") (init_state ∅) = (Ok resp, run.2))
    as Hrun by (vm_compute; reflexivity).
  split; [exact Hint|]. split; [exact Hn|]. split; [exact Hrun|].
  exact (handler_produces_candidates plain (PyStr "A cat sitting") (PyStr "cat")
           (PyInt 512) (PyInt 2) (PyStr "claude-3-5-sonnet-20240620")
           "ImageReward" (PyStr "prompts") 2 (init_state ∅) resp run.2 Hint Hn
           Hrun).
Defined.



Lemma handler_select_empty_raises_witness :
  let s := init_state {[ "/d/svg/cat_0.svg" := "<svg/>" ]} in
  sorted (glob_png "/d/png" (files s)) = []
  ∧ ∃ s', Handler.select_best_svg plain "/d/svg" "/d/png" (PyStr "A cat sitting")
            "cat" "ImageReward" s
          = (Raise (ValueError "No PNG files found for ranking"), s')
          ∧ scored (trace s') = scored (trace s).
Proof.
  intros s.
  assert (sorted (glob_png "/d/png" (files s)) = []) as Hempty
    by (vm_compute; reflexivity).
  split; [exact Hempty|].
  exact (handler_select_empty_raises plain "/d/svg" "/d/png"
           (PyStr "A cat sitting") "cat" "ImageReward" s Hempty).
Defined.

Lemma main_select_empty_reaches_scorer_witness :
  let cfg := Main.parse_arguments no_render (cli "f" 2 "ImageReward") in
  let s := (generation no_render cfg (init_state ∅)).2 in
  let s' := (Main.select_best_svg no_render cfg "ImageReward" s).2 in
  let r : result unit := Raise (IndexError "list index out of range") in
  sorted (glob_png (png_dir cfg) (files s)) = []
  ∧ Main.select_best_svg no_render cfg "ImageReward" s = (r, s')
  ∧ scored (trace s') = scored (trace s) ++ [[]].
Proof.
  intros cfg s s' r.
  assert (sorted (glob_png (png_dir cfg) (files s)) = []) as Hempty
    by (vm_compute; reflexivity).
  assert (Main.select_best_svg no_render cfg "ImageReward" s = (r, s')) as Hsel
    by (vm_compute; reflexivity).
  split; [exact Hempty|]. split; [exact Hsel|].
  exact (proj1 (main_select_empty_reaches_scorer no_render cfg s r s' Hempty
                  Hsel)).
Defined.
